(** * The user-preferences endpoint of tmarks

    A shallow embedding of [functions/api/v1/preferences.ts]: the two
    schema probes [hasTagLayoutColumn] and [hasSortByColumn], the handler
    of [GET /api/v1/preferences] and the handler of
    [PATCH /api/v1/preferences], run against a model of the D1 table
    [user_preferences].

    The handlers are asynchronous functions that talk to a database, read
    the clock and catch what is thrown.  They are written here in a state
    and exception monad over a [World]: the table, the environment's
    schedule for the coming statements (latency and injected failure), the
    clock, the trace of statements issued and the console.

    The body of a request is taken at the base types of
    [UpdatePreferencesRequest]: any string for a text field, any integer
    for [page_size].  D1 is a collaborator of the handlers, not part of
    them; its three statements are given the meaning SQLite gives them on
    a table whose only constraints are those of the migration. *)

From Stdlib Require Import ZArith String Ascii Bool List Lia.
From stdpp Require Import base option gmap strings list.

Open Scope string_scope.
Open Scope Z_scope.

(* ================================================================== *)
(** * JavaScript strings and the two regular expressions              *)
(* ================================================================== *)

Module Js.

(** [Canonicalize] of a case-insensitive, non-unicode regular expression:
    a code unit is compared through its upper-case form, and a code unit
    outside ASCII never folds onto an ASCII one.  On the bytes of a string
    only the letters a..z move. *)
Definition canonicalize (c : ascii) : ascii :=
  let n := N_of_ascii c in
  if ((97 <=? n) && (n <=? 122))%N then ascii_of_N (n - 32) else c.

Fixpoint canon (s : string) : string :=
  match s with
  | EmptyString => EmptyString
  | String c s' => String (canonicalize c) (canon s')
  end.

(** The pattern matched at the start of the subject. *)
Fixpoint match_here (pat s : string) : bool :=
  match pat, s with
  | EmptyString, _ => true
  | String _ _, EmptyString => false
  | String p pat', String c s' =>
      Ascii.eqb (canonicalize p) (canonicalize c) && match_here pat' s'
  end.

(** [/pat/i.test(s)] for a pattern made of literal characters only (both
    patterns of the source are: letters, blanks, a colon, an underscore).
    The expression has no [g] flag, so [test] keeps no position. *)
Fixpoint regex_test_i (pat s : string) : bool :=
  match_here pat s ||
  match s with
  | EmptyString => false
  | String _ s' => regex_test_i pat s'
  end.

(** [Array.prototype.includes] on an array of strings. *)
Fixpoint includes (l : list string) (x : string) : bool :=
  match l with
  | [] => false
  | y :: l' => String.eqb y x || includes l' x
  end.

(** Truthiness of a string and of a number. *)
Definition truthy_string (s : string) : bool :=
  match s with EmptyString => false | _ => true end.

Definition truthy_number (n : Z) : bool := negb (n =? 0).

(** ** [Date.prototype.toISOString] *)

Definition digit (n : Z) : ascii := ascii_of_N (48 + Z.to_N (n mod 10)).

(** The last [width] decimal digits of [n], zero padded. *)
Fixpoint digits (width : nat) (n : Z) : string :=
  match width with
  | O => EmptyString
  | S w => digits w (n / 10) ++ String (digit n) EmptyString
  end.

(** Year, month and day of the proleptic Gregorian calendar for a number
    of days since 1970-01-01. *)
Definition civil_from_days (days : Z) : Z * Z * Z :=
  let z := days + 719468 in
  let era := z / 146097 in
  let doe := z - era * 146097 in
  let yoe := (doe - doe / 1460 + doe / 36524 - doe / 146096) / 365 in
  let doy := doe - (365 * yoe + yoe / 4 - yoe / 100) in
  let mp := (5 * doy + 2) / 153 in
  let d := doy - (153 * mp + 2) / 5 + 1 in
  let m := if mp <? 10 then mp + 3 else mp - 9 in
  let y := yoe + era * 400 + (if m <=? 2 then 1 else 0) in
  (y, m, d).

Definition year_string (y : Z) : string :=
  if (0 <=? y) && (y <=? 9999) then digits 4 y
  else (if y <? 0 then "-" else "+") ++ digits 6 (Z.abs y).

(** [new Date(t).toISOString()] for a time value [t] in milliseconds since
    the epoch: [YYYY-MM-DDTHH:mm:ss.sssZ] in UTC. *)
Definition toISOString (t : Z) : string :=
  let days := t / 86400000 in
  let ms := t mod 86400000 in
  let '(y, m, d) := civil_from_days days in
  year_string y ++ "-" ++ digits 2 m ++ "-" ++ digits 2 d ++ "T" ++
  digits 2 (ms / 3600000) ++ ":" ++ digits 2 (ms / 60000 mod 60) ++ ":" ++
  digits 2 (ms / 1000 mod 60) ++ "." ++ digits 3 (ms mod 1000) ++ "Z".

End Js.

Open Scope list_scope.

(* ================================================================== *)
(** * Data model                                                      *)
(* ================================================================== *)

(** Modelled from the spec: [lib/types], which declares [SQLParam], is
    not part of this fragment.  The columns of section 3 of the
    specification hold text, integers or null, and these are the values a
    statement binds to a [?] and a column holds. *)
Inductive SQLParam :=
| SqlNull
| SqlNumber (n : Z)
| SqlText (s : string).

Global Instance SQLParam_eq_dec : EqDecision SQLParam.
Proof. solve_decision. Defined.

(** The columns of [user_preferences] next to the key [user_id]. *)
Inductive Column :=
| c_theme | c_page_size | c_view_mode | c_density
| c_tag_layout | c_sort_by | c_updated_at.

Global Instance Column_eq_dec : EqDecision Column.
Proof. solve_decision. Defined.

Definition all_columns : list Column :=
  [c_theme; c_page_size; c_view_mode; c_density;
   c_tag_layout; c_sort_by; c_updated_at].

Definition column_name (c : Column) : string :=
  match c with
  | c_theme => "theme"
  | c_page_size => "page_size"
  | c_view_mode => "view_mode"
  | c_density => "density"
  | c_tag_layout => "tag_layout"
  | c_sort_by => "sort_by"
  | c_updated_at => "updated_at"
  end.

(** The six fields a request may change. *)
Definition mutable_columns : list Column :=
  [c_theme; c_page_size; c_view_mode; c_density; c_tag_layout; c_sort_by].

(** A stored row.  The key [user_id] is the key of the table below. *)
Record Row := mkRow {
  row_theme : SQLParam;
  row_page_size : SQLParam;
  row_view_mode : SQLParam;
  row_density : SQLParam;
  row_tag_layout : SQLParam;
  row_sort_by : SQLParam;
  row_updated_at : SQLParam
}.

Definition row_get (c : Column) (r : Row) : SQLParam :=
  match c with
  | c_theme => row_theme r
  | c_page_size => row_page_size r
  | c_view_mode => row_view_mode r
  | c_density => row_density r
  | c_tag_layout => row_tag_layout r
  | c_sort_by => row_sort_by r
  | c_updated_at => row_updated_at r
  end.

Definition row_set (c : Column) (v : SQLParam) (r : Row) : Row :=
  match c with
  | c_theme => mkRow v (row_page_size r) (row_view_mode r) (row_density r) (row_tag_layout r) (row_sort_by r) (row_updated_at r)
  | c_page_size => mkRow (row_theme r) v (row_view_mode r) (row_density r) (row_tag_layout r) (row_sort_by r) (row_updated_at r)
  | c_view_mode => mkRow (row_theme r) (row_page_size r) v (row_density r) (row_tag_layout r) (row_sort_by r) (row_updated_at r)
  | c_density => mkRow (row_theme r) (row_page_size r) (row_view_mode r) v (row_tag_layout r) (row_sort_by r) (row_updated_at r)
  | c_tag_layout => mkRow (row_theme r) (row_page_size r) (row_view_mode r) (row_density r) v (row_sort_by r) (row_updated_at r)
  | c_sort_by => mkRow (row_theme r) (row_page_size r) (row_view_mode r) (row_density r) (row_tag_layout r) v (row_updated_at r)
  | c_updated_at => mkRow (row_theme r) (row_page_size r) (row_view_mode r) (row_density r) (row_tag_layout r) (row_sort_by r) v
  end.

(** [interface UserPreferences]: the object a [SELECT *] yields.  The two
    optional fields are [None] when the fetched object has no such
    property (the column is not in the table). *)
Record UserPreferences := mkUserPreferences {
  user_id : string;
  theme : SQLParam;
  page_size : SQLParam;
  view_mode : SQLParam;
  density : SQLParam;
  tag_layout : option SQLParam;
  sort_by : option SQLParam;
  updated_at : SQLParam
}.

(** [interface UpdatePreferencesRequest]: every field optional, [None]
    for [undefined].  The development covers the bodies of the interface
    at its base types: a JSON object whose text fields hold strings, any
    string since [request.json()] is cast without a check, and whose
    [page_size] holds an integer.  A body that is null, a field that holds
    null, a boolean, an array or an object, and a [page_size] that holds a
    string or a fraction are outside it: what the handler makes of them
    rests on conversions of JavaScript and on column types of the base
    table, which the fragment does not fix. *)
Record UpdatePreferencesRequest := mkBody {
  body_theme : option string;
  body_page_size : option Z;
  body_view_mode : option string;
  body_density : option string;
  body_tag_layout : option string;
  body_sort_by : option string
}.

Definition empty_body : UpdatePreferencesRequest :=
  mkBody None None None None None None.

(** The [preferences] object of a success response. *)
Record Preferences := mkPreferences {
  out_theme : SQLParam;
  out_page_size : SQLParam;
  out_view_mode : SQLParam;
  out_density : SQLParam;
  out_tag_layout : SQLParam;
  out_sort_by : SQLParam;
  out_updated_at : SQLParam
}.

(** Modelled from the spec: [lib/response] is not part of this fragment.
    The handlers build four responses; section 6 of the specification
    names them success, bad input, not found and internal. *)
Inductive Response :=
| success (preferences : Preferences)
| badRequest (message : string)
| notFound (message : string)
| internalError (message : string).

(** Modelled from the spec: the status of each response, from section 6
    of the specification: 200 for a success, 400 for a bad input, 404 when
    there is no row and 500 for an unexpected failure. *)
Definition status (r : Response) : Z :=
  match r with
  | success _ => 200
  | badRequest _ => 400
  | notFound _ => 404
  | internalError _ => 500
  end.

(** What a [throw] carries: an [Error] with its message, or a value that
    is not an instance of [Error]. *)
Inductive Thrown :=
| JsError (message : string)
| JsValue (v : string).

Inductive Completion (A : Type) :=
| Normal (a : A)
| Abrupt (e : Thrown).
Arguments Normal {A} a.
Arguments Abrupt {A} e.

(* ================================================================== *)
(** * The D1 table                                                    *)
(* ================================================================== *)

(** Modelled from the spec: the definition of the table is not part of
    this fragment.  Section 6 of the specification lists its columns, with
    [user_id] as key and no constraint on the four base columns; the
    migration adds [tag_layout] and [sort_by], both NOT NULL, so a table
    has each of the two or not.  Values are kept as they are bound. *)
Record Db := mkDb {
  has_tag_layout : bool;
  has_sort_by : bool;
  rows : gmap string Row
}.

Definition column_exists (d : Db) (c : Column) : bool :=
  match c with
  | c_tag_layout => has_tag_layout d
  | c_sort_by => has_sort_by d
  | _ => true
  end.

(** The statements the handlers prepare. *)
Inductive Stmt :=
| SelectColumnLimit1 (c : Column)
    (* SELECT <c> FROM user_preferences LIMIT 1 *)
| SelectByUserId (uid : string)
    (* SELECT * FROM user_preferences WHERE user_id = ?   bound to uid *)
| UpdateByUserId (updates : list string) (values : list SQLParam).
    (* UPDATE user_preferences SET <updates joined by ', '>
       WHERE user_id = ?   bound to values *)

Definition is_update (s : Stmt) : bool :=
  match s with UpdateByUserId _ _ => true | _ => false end.

(** The error SQLite reports through D1 for a [SELECT <c>] of a column
    the table lacks; the offset is the place of the name in the
    statement. *)
Definition no_such_column (c : Column) : Thrown :=
  JsError ("D1_ERROR: no such column: " +:+ column_name c +:+
           " at offset 7: SQLITE_ERROR").

(** The error for an [UPDATE] that sets a column the table lacks: the
    same words, without an offset. *)
Definition no_such_column_set (c : Column) : Thrown :=
  JsError ("D1_ERROR: no such column: " +:+ column_name c +:+
           ": SQLITE_ERROR").

(** The columns the migration declares NOT NULL, and the error for a
    null in one of them. *)
Definition not_null (c : Column) : bool :=
  match c with
  | c_tag_layout | c_sort_by => true
  | _ => false
  end.

Definition not_null_failed (c : Column) : Thrown :=
  JsError ("D1_ERROR: NOT NULL constraint failed: user_preferences." +:+
           column_name c +:+ ": SQLITE_CONSTRAINT").

Definition fetch (d : Db) (uid : string) (r : Row) : UserPreferences :=
  {| user_id := uid;
     theme := row_theme r;
     page_size := row_page_size r;
     view_mode := row_view_mode r;
     density := row_density r;
     tag_layout := if has_tag_layout d then Some (row_tag_layout r) else None;
     sort_by := if has_sort_by d then Some (row_sort_by r) else None;
     updated_at := row_updated_at r |}.

(** [SELECT <c> ... LIMIT 1] then [first()]: the column of some row, or
    null for an empty table; the handlers drop the result. *)
Definition select_column (d : Db) (c : Column) : Completion (option SQLParam) :=
  if column_exists d c
  then Normal (row_get c <$> head (map_to_list (rows d)).*2)
  else Abrupt (no_such_column c).

(** [SELECT * ... WHERE user_id = ?] then [first()]. *)
Definition select_by_user (d : Db) (uid : string) : option UserPreferences :=
  fetch d uid <$> rows d !! uid.

(** The column a clause [<name> = ?] assigns. *)
Definition clause_column (clause : string) : option Column :=
  find (fun c => String.eqb (column_name c +:+ " = ?") clause) all_columns.

Fixpoint clause_columns (updates : list string) : option (list Column) :=
  match updates with
  | [] => Some []
  | u :: us =>
      match clause_column u, clause_columns us with
      | Some c, Some cs => Some (c :: cs)
      | _, _ => None
      end
  end.

Fixpoint assign (cols : list Column) (values : list SQLParam) (r : Row) : Row :=
  match cols, values with
  | c :: cols', v :: values' => assign cols' values' (row_set c v r)
  | _, _ => r
  end.

(** The value a statement leaves in a column: the rightmost one its
    clauses bind to it, if any. *)
Fixpoint bound (c : Column) (cols : list Column) (values : list SQLParam)
  : option SQLParam :=
  match cols, values with
  | c' :: cols', v :: values' =>
      match bound c cols' values' with
      | Some x => Some x
      | None => if decide (c' = c) then Some v else None
      end
  | _, _ => None
  end.

(** [UPDATE ... SET ... WHERE user_id = ?] then [run()]: the clauses take
    the first values, the filter the last one.  A statement that names a
    column the table lacks does not prepare; one that leaves null in a
    NOT NULL column of a row fails and changes nothing; one whose filter
    matches no row changes nothing and is no error. *)
Definition update_by_user (d : Db) (updates : list string)
    (values : list SQLParam) : Completion unit * Db :=
  match clause_columns updates with
  | None => (Abrupt (JsError "D1_ERROR: syntax error: SQLITE_ERROR"), d)
  | Some cols =>
      if negb (length values =? S (length cols))%nat then
        (Abrupt (JsError "D1_TYPE_ERROR: Wrong number of parameter bindings for SQL query."), d)
      else
        match find (fun c => negb (column_exists d c)) cols with
        | Some c => (Abrupt (no_such_column_set c), d)
        | None =>
            match last values with
            | Some (SqlText uid) =>
                match find (fun c => not_null c &&
                                     bool_decide (bound c cols values =
                                                  Some SqlNull)) cols with
                | Some c =>
                    if bool_decide (is_Some (rows d !! uid))
                    then (Abrupt (not_null_failed c), d)
                    else (Normal (), d)
                | None =>
                    (Normal (), mkDb (has_tag_layout d) (has_sort_by d)
                                  (alter (assign cols values) uid (rows d)))
                end
            | _ => (Normal (), d)
            end
        end
  end.

(* ================================================================== *)
(** * The world a handler runs in                                     *)
(* ================================================================== *)

(** What the environment holds for one coming statement: the time its
    round trip takes, in milliseconds, and the failure it meets, if any
    (a lost connection, an overloaded store). *)
Record Step := mkStep {
  latency : nat;
  fault : option Thrown
}.

Definition quiet : Step := mkStep 0 None.

Record World := mkWorld {
  db : Db;
  sched : list Step;
  clock : Z;
  trace : list Stmt;
  console : list (string * Thrown)
}.

(** An asynchronous computation: it completes normally or throws, and
    leaves a world. *)
Definition M (A : Type) : Type := World -> Completion A * World.

Global Instance M_ret : MRet M := fun A a w => (Normal a, w).

Global Instance M_bind : MBind M := fun A B f m w =>
  match m w with
  | (Normal a, w') => f a w'
  | (Abrupt e, w') => (Abrupt e, w')
  end.

Definition throw {A} (e : Thrown) : M A := fun w => (Abrupt e, w).

(** [try { body } catch (error) { handler }] *)
Definition try_catch {A} (body : M A) (handler : Thrown -> M A) : M A :=
  fun w =>
    match body w with
    | (Normal a, w') => (Normal a, w')
    | (Abrupt e, w') => handler e w'
    end.

Definition console_error (label : string) (e : Thrown) : M unit :=
  fun w => (Normal (),
            mkWorld (db w) (sched w) (clock w) (trace w)
                    (console w ++ [(label, e)])).

(** [new Date().toISOString()] *)
Definition new_Date_toISOString : M string :=
  fun w => (Normal (Js.toISOString (clock w)), w).

(** The world once a statement has been sent: it is recorded, its step
    of the schedule is used up and the clock has moved by the round trip;
    [d] is the table it leaves. *)
Definition tick (s : Stmt) (d : Db) (w : World) : World :=
  let st := default quiet (head (sched w)) in
  mkWorld d (tail (sched w)) (clock w + Z.of_nat (latency st))
          (trace w ++ [s]) (console w).

(** One statement sent to the store: it either meets the failure the
    environment holds for it, and the table is as before, or runs on the
    table. *)
Definition statement {A} (s : Stmt) (sem : Db -> Completion A * Db) : M A :=
  fun w =>
    match fault (default quiet (head (sched w))) with
    | Some e => (Abrupt e, tick s (db w) w)
    | None => let '(res, d') := sem (db w) in (res, tick s d' w)
    end.

Definition first_column (c : Column) : M (option SQLParam) :=
  statement (SelectColumnLimit1 c) (fun d => (select_column d c, d)).

Definition first_by_user (uid : string) : M (option UserPreferences) :=
  statement (SelectByUserId uid) (fun d => (Normal (select_by_user d uid), d)).

Definition run_update (updates : list string) (values : list SQLParam) : M unit :=
  statement (UpdateByUserId updates values)
            (fun d => update_by_user d updates values).

(** What [requireAuth] and the runtime hand to a handler: the user
    identifier and what [request.json()] completes with, a JSON object of
    the interface above or what it throws. *)
Record Context := mkContext {
  data_user_id : string;
  request_json : Completion UpdatePreferencesRequest
}.

Definition json (context : Context) : M UpdatePreferencesRequest :=
  fun w => (request_json context, w).

(* ================================================================== *)
(** * The source                                                      *)
(* ================================================================== *)

(** The [catch] of the two probes: [error instanceof Error] and the
    message matched by the expression, or the error thrown again. *)
Definition probe_catch (pattern : string) (error : Thrown) : M bool :=
  match error with
  | JsError message =>
      if Js.regex_test_i pattern message then mret false else throw error
  | JsValue _ => throw error
  end.

Definition hasTagLayoutColumn : M bool :=
  try_catch
    (_ ← first_column c_tag_layout; mret true)
    (probe_catch "no such column: tag_layout").

Definition hasSortByColumn : M bool :=
  try_catch
    (_ ← first_column c_sort_by; mret true)
    (probe_catch "no such column: sort_by").

(** [preferences.tag_layout ?? 'grid'] *)
Definition nullish (v : option SQLParam) (dflt : string) : SQLParam :=
  match v with
  | None | Some SqlNull => SqlText dflt
  | Some x => x
  end.

(** The object both handlers answer with. *)
Definition project (preferences : UserPreferences) : Preferences :=
  {| out_theme := theme preferences;
     out_page_size := page_size preferences;
     out_view_mode := view_mode preferences;
     out_density := density preferences;
     out_tag_layout := nullish (tag_layout preferences) "grid";
     out_sort_by := nullish (sort_by preferences) "popular";
     out_updated_at := updated_at preferences |}.

Definition onRequestGet (context : Context) : M Response :=
  try_catch
    (let userId := data_user_id context in
     preferences ← first_by_user userId;
     match preferences with
     | None => mret (notFound "Preferences not found")
     | Some preferences => mret (success (project preferences))
     end)
    (fun error =>
       _ ← console_error "Get preferences error:" error;
       mret (internalError "Failed to get preferences")).

(** [body.f && !allowed.includes(body.f)] *)
Definition not_among (allowed : list string) (field : option string) : bool :=
  match field with
  | Some v => Js.truthy_string v && negb (Js.includes allowed v)
  | None => false
  end.

(** [body.page_size && (body.page_size < 10 || body.page_size > 100)] *)
Definition out_of_range (field : option Z) : bool :=
  match field with
  | Some n => Js.truthy_number n && ((n <? 10) || (n >? 100))
  | None => false
  end.

(** The six checks, in order; the first that fails answers. *)
Definition validate (body : UpdatePreferencesRequest) : option Response :=
  if not_among ["light"; "dark"] (body_theme body) then
    Some (badRequest "Invalid theme value")
  else if out_of_range (body_page_size body) then
    Some (badRequest "Page size must be between 10 and 100")
  else if not_among ["list"; "card"; "minimal"; "title"] (body_view_mode body) then
    Some (badRequest "Invalid view mode")
  else if not_among ["compact"; "normal"; "comfortable"] (body_density body) then
    Some (badRequest "Invalid density value")
  else if not_among ["grid"; "masonry"] (body_tag_layout body) then
    Some (badRequest "Invalid tag layout value")
  else if not_among ["created"; "updated"; "pinned"; "popular"] (body_sort_by body) then
    Some (badRequest "Invalid sort_by value")
  else None.

(** [if (cond) { updates.push(clause); values.push(v) }], for a field
    [v] that is not [undefined]. *)
Definition push_field {A} (field : option A) (enabled : bool) (clause : string)
    (param : A -> SQLParam) (acc : list string * list SQLParam)
  : list string * list SQLParam :=
  match field with
  | Some v =>
      if enabled then (acc.1 ++ [clause], acc.2 ++ [param v]) else acc
  | None => acc
  end.

(** The lists [updates] and [values] as they stand at the test of
    [updates.length]. *)
Definition build_updates (body : UpdatePreferencesRequest)
    (tagLayoutSupported sortBySupported : bool) : list string * list SQLParam :=
  let acc := ([], []) in
  let acc := push_field (body_theme body) true "theme = ?" SqlText acc in
  let acc := push_field (body_page_size body) true "page_size = ?" SqlNumber acc in
  let acc := push_field (body_view_mode body) true "view_mode = ?" SqlText acc in
  let acc := push_field (body_density body) true "density = ?" SqlText acc in
  let acc := push_field (body_tag_layout body) tagLayoutSupported "tag_layout = ?" SqlText acc in
  let acc := push_field (body_sort_by body) sortBySupported "sort_by = ?" SqlText acc in
  acc.

Definition defined {A} (field : option A) : bool :=
  match field with Some _ => true | None => false end.

Definition onRequestPatch (context : Context) : M Response :=
  try_catch
    (let userId := data_user_id context in
     body ← json context;
     tagLayoutSupported ← hasTagLayoutColumn;
     sortBySupported ← hasSortByColumn;
     match validate body with
     | Some rejection => mret rejection
     | None =>
       let '(updates, values) :=
         build_updates body tagLayoutSupported sortBySupported in
       if (length updates =? 0)%nat then
         if (defined (body_tag_layout body) && negb tagLayoutSupported) ||
            (defined (body_sort_by body) && negb sortBySupported)
         then
           preferences ← first_by_user userId;
           match preferences with
           | None => mret (internalError "Failed to load preferences")
           | Some preferences => mret (success (project preferences))
           end
         else mret (badRequest "No valid fields to update")
       else
         now ← new_Date_toISOString;
         let updates := updates ++ ["updated_at = ?"] in
         let values := values ++ [SqlText now] in
         let values := values ++ [SqlText userId] in
         _ ← run_update updates values;
         preferences ← first_by_user userId;
         match preferences with
         | None => mret (internalError "Failed to load preferences after update")
         | Some preferences => mret (success (project preferences))
         end
     end)
    (fun error =>
       _ ← console_error "Update preferences error:" error;
       mret (internalError "Failed to update preferences")).

(** The part of [onRequestPatch] that follows the two probes, named for
    the proofs ([onRequestPatch_tail] below relates it to the handler). *)
Definition patch_tail (userId : string) (body : UpdatePreferencesRequest)
    (tagLayoutSupported sortBySupported : bool) : M Response :=
  match validate body with
  | Some rejection => mret rejection
  | None =>
    let '(updates, values) :=
      build_updates body tagLayoutSupported sortBySupported in
    if (length updates =? 0)%nat then
      if (defined (body_tag_layout body) && negb tagLayoutSupported) ||
         (defined (body_sort_by body) && negb sortBySupported)
      then
        preferences ← first_by_user userId;
        match preferences with
        | None => mret (internalError "Failed to load preferences")
        | Some preferences => mret (success (project preferences))
        end
      else mret (badRequest "No valid fields to update")
    else
      now ← new_Date_toISOString;
      let updates := updates ++ ["updated_at = ?"] in
      let values := values ++ [SqlText now] in
      let values := values ++ [SqlText userId] in
      _ ← run_update updates values;
      preferences ← first_by_user userId;
      match preferences with
      | None => mret (internalError "Failed to load preferences after update")
      | Some preferences => mret (success (project preferences))
      end
  end.

Definition patch_catch (error : Thrown) : M Response :=
  _ ← console_error "Update preferences error:" error;
  mret (internalError "Failed to update preferences").

(* ================================================================== *)
(** * The specification's words                                       *)
(* ================================================================== *)

(** "A no such column condition, matched by a case-insensitive substring
    check against the column's exact name": the error is an [Error] whose
    message holds, somewhere, the words [no such column: <name>] in any
    mix of cases. *)
Definition no_such_column_condition (c : Column) (e : Thrown) : Prop :=
  exists pre mid post,
    e = JsError (pre +:+ mid +:+ post) /\
    Js.canon mid = Js.canon ("no such column: " +:+ column_name c).

(** The probe of an optional column. *)
Definition probe (c : Column) : M bool :=
  match c with
  | c_sort_by => hasSortByColumn
  | _ => hasTagLayoutColumn
  end.

(** The field of a body that goes to a column, as the value bound. *)
Definition body_field (c : Column) (body : UpdatePreferencesRequest)
  : option SQLParam :=
  match c with
  | c_theme => SqlText <$> body_theme body
  | c_page_size => SqlNumber <$> body_page_size body
  | c_view_mode => SqlText <$> body_view_mode body
  | c_density => SqlText <$> body_density body
  | c_tag_layout => SqlText <$> body_tag_layout body
  | c_sort_by => SqlText <$> body_sort_by body
  | c_updated_at => None
  end.

(** No failure is injected into the coming statements. *)
Definition no_faults (l : list Step) : Prop :=
  Forall (fun st => fault st = None) l.

(** The value of a column in the row of a user, if there is a row. *)
Definition stored (c : Column) (uid : string) (w : World) : option SQLParam :=
  row_get c <$> rows (db w) !! uid.

(** What a probe makes of the completion of its read. *)
Definition probe_answer (pattern : string)
    (read : Completion (option SQLParam)) : Completion bool :=
  match read with
  | Normal _ => Normal true
  | Abrupt (JsError message) =>
      if Js.regex_test_i pattern message then Normal false
      else Abrupt (JsError message)
  | Abrupt e => Abrupt e
  end.

(** The row an accepted body leaves, column by column: a field of the
    body replaces the value of its column, for the two optional columns
    only when the probe answered that the column is there; [updated_at]
    takes the time of the request. *)
Definition patched (body : UpdatePreferencesRequest) (tl sb : bool)
    (now : string) (r : Row) : Row :=
  {| row_theme := default (row_theme r) (body_field c_theme body);
     row_page_size := default (row_page_size r) (body_field c_page_size body);
     row_view_mode := default (row_view_mode r) (body_field c_view_mode body);
     row_density := default (row_density r) (body_field c_density body);
     row_tag_layout :=
       if tl then default (row_tag_layout r) (body_field c_tag_layout body)
       else row_tag_layout r;
     row_sort_by :=
       if sb then default (row_sort_by r) (body_field c_sort_by body)
       else row_sort_by r;
     row_updated_at := SqlText now |}.

Definition patched_db (body : UpdatePreferencesRequest) (tl sb : bool)
    (now uid : string) (d : Db) : Db :=
  mkDb (has_tag_layout d) (has_sort_by d)
       (alter (patched body tl sb now) uid (rows d)).


(** The world once the two probes have been sent. *)
Definition after_probes (w : World) : World :=
  tick (SelectColumnLimit1 c_sort_by) (db w)
       (tick (SelectColumnLimit1 c_tag_layout) (db w) w).

(** [body.tag_layout !== undefined && !tagLayoutSupported ||
     body.sort_by !== undefined && !sortBySupported]: a field of the body
    goes to an optional column the probe reported missing. *)
Definition masked (body : UpdatePreferencesRequest) (tl sb : bool) : bool :=
  (defined (body_tag_layout body) && negb tl) ||
  (defined (body_sort_by body) && negb sb).

(** What the probes say of a column; the four base columns are not
    probed. *)
Definition supported (c : Column) (tl sb : bool) : bool :=
  match c with
  | c_tag_layout => tl
  | c_sort_by => sb
  | _ => true
  end.

(** How the read of the row that ends a request can complete: the read
    fails and the [catch] answers, or it finds no row, or it finds the
    row and the handler projects it. *)
Definition reread (d : Db) (uid miss : string) (out : Completion Response)
  : Prop :=
  out = Normal (internalError "Failed to update preferences") \/
  (rows d !! uid = None /\ out = Normal (internalError miss)) \/
  (exists r, rows d !! uid = Some r /\
             out = Normal (success (project (fetch d uid r)))).

(** The statement the handler sends for a body. *)
Definition update_stmt (body : UpdatePreferencesRequest) (tl sb : bool)
    (now uid : string) : Stmt :=
  UpdateByUserId
    ((build_updates body tl sb).1 ++ ["updated_at = ?"])
    (((build_updates body tl sb).2 ++ [SqlText now]) ++ [SqlText uid]).

(** A stored value, or the default when the column is missing from the
    table or holds null. *)
Definition with_default (present : bool) (v : SQLParam) (dflt : string)
  : SQLParam :=
  if present then (if decide (v = SqlNull) then SqlText dflt else v)
  else SqlText dflt.

(** "A pure projection of the row with default substitution": each field
    is the stored value of its column, but "grid" stands for a missing or
    null [tag_layout] and "popular" for a missing or null [sort_by]. *)
Definition shown (d : Db) (r : Row) : Preferences :=
  {| out_theme := row_theme r;
     out_page_size := row_page_size r;
     out_view_mode := row_view_mode r;
     out_density := row_density r;
     out_tag_layout := with_default (has_tag_layout d) (row_tag_layout r) "grid";
     out_sort_by := with_default (has_sort_by d) (row_sort_by r) "popular";
     out_updated_at := row_updated_at r |}.

Definition out_get (c : Column) (p : Preferences) : SQLParam :=
  match c with
  | c_theme => out_theme p
  | c_page_size => out_page_size p
  | c_view_mode => out_view_mode p
  | c_density => out_density p
  | c_tag_layout => out_tag_layout p
  | c_sort_by => out_sort_by p
  | c_updated_at => out_updated_at p
  end.

(** The body with the field of a column left out. *)
Definition without (c : Column) (body : UpdatePreferencesRequest)
  : UpdatePreferencesRequest :=
  match c with
  | c_theme => mkBody None (body_page_size body) (body_view_mode body) (body_density body) (body_tag_layout body) (body_sort_by body)
  | c_page_size => mkBody (body_theme body) None (body_view_mode body) (body_density body) (body_tag_layout body) (body_sort_by body)
  | c_view_mode => mkBody (body_theme body) (body_page_size body) None (body_density body) (body_tag_layout body) (body_sort_by body)
  | c_density => mkBody (body_theme body) (body_page_size body) (body_view_mode body) None (body_tag_layout body) (body_sort_by body)
  | c_tag_layout => mkBody (body_theme body) (body_page_size body) (body_view_mode body) (body_density body) None (body_sort_by body)
  | c_sort_by => mkBody (body_theme body) (body_page_size body) (body_view_mode body) (body_density body) (body_tag_layout body) None
  | c_updated_at => body
  end.

(** The five columns that hold text a request may set. *)
Definition text_columns : list Column :=
  [c_theme; c_view_mode; c_density; c_tag_layout; c_sort_by].

(** The world a second request finds: the table, the trace and the
    console as the first left them, the clock [dt] milliseconds on, and a
    schedule of its own. *)
Definition later (w : World) (dt : nat) (sch : list Step) : World :=
  mkWorld (db w) sch (clock w + Z.of_nat dt) (trace w) (console w).

(** ** Sample data *)

Definition row0 : Row :=
  mkRow (SqlText "light") (SqlNumber 20) (SqlText "list") (SqlText "normal")
        (SqlText "grid") (SqlText "popular")
        (SqlText "2024-01-01T00:00:00.000Z").

(** A migrated table and a table from before the migration, each with
    the row of user [u1] only. *)
Definition table_new : Db := mkDb true true {[ "u1" := row0 ]}.
Definition table_old : Db := mkDb false false {[ "u1" := row0 ]}.

(** Worlds at 2023-11-14T22:13:20.123Z whose store answers at once and
    does not fail. *)
Definition world_new : World := mkWorld table_new [] 1700000000123 [] [].
Definition world_old : World := mkWorld table_old [] 1700000000123 [] [].

Definition as_user (uid : string) (body : UpdatePreferencesRequest) : Context :=
  mkContext uid (Normal body).

Definition theme_dark : UpdatePreferencesRequest :=
  mkBody (Some "dark") None None None None None.
Definition theme_empty : UpdatePreferencesRequest :=
  mkBody (Some "") None None None None None.
Definition page_size_zero : UpdatePreferencesRequest :=
  mkBody None (Some 0) None None None None.
Definition view_mode_bogus : UpdatePreferencesRequest :=
  mkBody None None (Some "bogus") None None None.
Definition tag_layout_masonry : UpdatePreferencesRequest :=
  mkBody None None None None (Some "masonry") None.
Definition tag_layout_empty : UpdatePreferencesRequest :=
  mkBody None None None None (Some "") None.

(* ================================================================== *)
(** * The domains of the columns and the migration                    *)
(* ================================================================== *)

(** The values the validation lets through for a text column. *)
Definition allowed (c : Column) : list string :=
  match c with
  | c_theme => ["light"; "dark"]
  | c_view_mode => ["list"; "card"; "minimal"; "title"]
  | c_density => ["compact"; "normal"; "comfortable"]
  | c_tag_layout => ["grid"; "masonry"]
  | c_sort_by => ["created"; "updated"; "pinned"; "popular"]
  | _ => []
  end.

(** A value in the domain of its column: one of the allowed strings, or
    a page size from 10 to 100. *)
Definition in_domain (c : Column) (v : SQLParam) : Prop :=
  match c, v with
  | c_updated_at, _ => True
  | c_page_size, SqlNumber n => 10 <= n <= 100
  | c_page_size, _ => False
  | _, SqlText s => In s (allowed c)
  | _, _ => False
  end.

(** A value the truthiness guards of the validation let through
    unchecked: the empty string and zero. *)
Definition falsy (v : SQLParam) : Prop :=
  v = SqlText "" \/ v = SqlNumber 0.

(** The field of a column passes its check: it is not in the body, or
    falsy, or in the domain. *)
Definition field_accepted (c : Column) (body : UpdatePreferencesRequest) : Prop :=
  forall v, body_field c body = Some v -> falsy v \/ in_domain c v.

(** The message of the check of a column. *)
Definition rejection (c : Column) : string :=
  match c with
  | c_theme => "Invalid theme value"
  | c_page_size => "Page size must be between 10 and 100"
  | c_view_mode => "Invalid view mode"
  | c_density => "Invalid density value"
  | c_tag_layout => "Invalid tag layout value"
  | c_sort_by => "Invalid sort_by value"
  | c_updated_at => ""
  end.

(** The default of an optional column in the handlers. *)
Definition fallback (c : Column) : string :=
  match c with
  | c_sort_by => "popular"
  | _ => "grid"
  end.

(** The world with another table. *)
Definition with_db (d : Db) (w : World) : World :=
  mkWorld d (sched w) (clock w) (trace w) (console w).

(** [ALTER TABLE user_preferences ADD COLUMN <c> TEXT NOT NULL DEFAULT
    '<dflt>']: SQLite refuses a column the table has; otherwise the table
    has the column and every row holds the default in it. *)
Definition add_column (c : Column) (dflt : string) (d : Db) : Completion Db :=
  if column_exists d c then
    Abrupt (JsError ("D1_ERROR: duplicate column name: " +:+ column_name c +:+
                     ": SQLITE_ERROR"))
  else
    Normal (mkDb (if decide (c = c_tag_layout) then true else has_tag_layout d)
                 (if decide (c = c_sort_by) then true else has_sort_by d)
                 (row_set c (SqlText dflt) <$> rows d)).

(** The two statements of the migration that touch [user_preferences],
    in order; the statements after them create indexes on [bookmarks] and
    leave this table alone. *)
Definition migration (d : Db) : Completion Db :=
  match add_column c_tag_layout "grid" d with
  | Normal d1 => add_column c_sort_by "popular" d1
  | Abrupt e => Abrupt e
  end.

(** The statements a request has sent. *)
Definition probe_tag_layout : Stmt := SelectColumnLimit1 c_tag_layout.
Definition probe_sort_by : Stmt := SelectColumnLimit1 c_sort_by.

(** A body for a base column and an optional one. *)
Definition dark_created : UpdatePreferencesRequest :=
  mkBody (Some "dark") None None None None (Some "created").

(** A world whose store fails at the fourth statement. *)
Definition world_read_fails : World :=
  mkWorld table_new
          [quiet; quiet; quiet;
           mkStep 4 (Some (JsError "D1_ERROR: Network connection lost."))]
          1700000000123 [] [].

(** A world whose table has [tag_layout], not [sort_by], and holds null
    in [tag_layout] for user [u1]. *)
Definition row_null : Row := row_set c_tag_layout SqlNull row0.
Definition world_null : World :=
  mkWorld (mkDb true false {[ "u1" := row_null ]}) [] 1700000000123 [] [].

(** A world whose store fails at the first statement. *)
Definition world_probe_fails : World :=
  mkWorld table_new
          [mkStep 5 (Some (JsError "D1_ERROR: Network connection lost."))]
          1700000000123 [] [].

(* ================================================================== *)
(** * The regular expressions                                         *)
(* ================================================================== *)

Lemma match_here_spec (pat s : string) :
  Js.match_here pat s = true <->
  exists mid post, s = mid +:+ post /\ Js.canon mid = Js.canon pat.
Proof.
  revert s. induction pat as [|p pat IH]; intros s; simpl.
  - split; [|done]. intros _. exists EmptyString, s. done.
  - destruct s as [|c s].
    + split; [done|]. intros (mid & post & Hs & Hc).
      destruct mid; simpl in *; discriminate.
    + rewrite andb_true_iff, Ascii.eqb_eq, IH. split.
      * intros (Hpc & mid & post & -> & Hc).
        exists (String c mid), post. simpl. by rewrite Hc, Hpc.
      * intros (mid & post & Hs & Hc).
        destruct mid as [|m mid]; simpl in *; [discriminate|].
        injection Hs as -> ->. injection Hc as Hm Hc.
        split; [done|]. by exists mid, post.
Qed.

Lemma regex_test_i_spec (pat s : string) :
  Js.regex_test_i pat s = true <->
  exists pre mid post, s = pre +:+ mid +:+ post /\ Js.canon mid = Js.canon pat.
Proof.
  induction s as [|c s IH]; simpl.
  - rewrite orb_false_r, match_here_spec. split.
    + intros (mid & post & Hs & Hc). by exists EmptyString, mid, post.
    + intros (pre & mid & post & Hs & Hc).
      destruct pre; simpl in *; [|discriminate]. by exists mid, post.
  - rewrite orb_true_iff, match_here_spec, IH. split.
    + intros [(mid & post & Hs & Hc) | (pre & mid & post & Hs & Hc)].
      * by exists EmptyString, mid, post.
      * exists (String c pre), mid, post. simpl. by rewrite Hs.
    + intros (pre & mid & post & Hs & Hc).
      destruct pre as [|c' pre]; simpl in *.
      * left. by exists mid, post.
      * injection Hs as -> ->. right. by exists pre, mid, post.
Qed.

Example toISOString_epoch : Js.toISOString 0 = "1970-01-01T00:00:00.000Z".
Proof. reflexivity. Qed.

Example toISOString_2023 :
  Js.toISOString 1700000000123 = "2023-11-14T22:13:20.123Z".
Proof. vm_compute. reflexivity. Qed.

Example toISOString_leap_day :
  Js.toISOString 1709210096789 = "2024-02-29T12:34:56.789Z".
Proof. vm_compute. reflexivity. Qed.

Example toISOString_before_epoch :
  Js.toISOString (-1) = "1969-12-31T23:59:59.999Z".
Proof. vm_compute. reflexivity. Qed.

Example regex_test_i_mixed_case :
  Js.regex_test_i "no such column: tag_layout"
    "D1_ERROR: No Such Column: TAG_LAYOUT at offset 7" = true.
Proof. reflexivity. Qed.

Example regex_test_i_other_column :
  Js.regex_test_i "no such column: tag_layout"
    "D1_ERROR: no such column: sort_by at offset 7" = false.
Proof. reflexivity. Qed.

(* ================================================================== *)
(** * The schema probes                                               *)
(* ================================================================== *)

Lemma first_column_world (c : Column) (w : World) :
  (first_column c w).2 = tick (SelectColumnLimit1 c) (db w) w.
Proof.
  unfold first_column, statement.
  destruct (fault _); [done|]. by destruct (select_column _ _).
Qed.

Lemma probe_shape (c : Column) (pattern : string) (w : World) :
  try_catch (_ ← first_column c; mret true) (probe_catch pattern) w =
  (probe_answer pattern (first_column c w).1, (first_column c w).2).
Proof.
  unfold try_catch, mbind, M_bind, mret, M_ret.
  destruct (first_column c w) as [[v|e] w']; simpl; [done|].
  destruct e as [m|v]; simpl; [|done].
  by destruct (Js.regex_test_i pattern m).
Qed.

Lemma probe_run (c : Column) (w : World) :
  c = c_tag_layout \/ c = c_sort_by ->
  probe c w =
  (probe_answer ("no such column: " +:+ column_name c) (first_column c w).1,
   tick (SelectColumnLimit1 c) (db w) w).
Proof.
  intros [-> | ->]; simpl; unfold hasTagLayoutColumn, hasSortByColumn;
    by rewrite probe_shape, first_column_world.
Qed.

Lemma probe_answer_false (c : Column) (read : Completion (option SQLParam)) :
  probe_answer ("no such column: " +:+ column_name c) read = Normal false <->
  exists e, read = Abrupt e /\ no_such_column_condition c e.
Proof.
  unfold no_such_column_condition. destruct read as [v|[m|v]]; simpl.
  - split; [done|]. by intros (e & He & _).
  - destruct (Js.regex_test_i _ m) eqn:Hre.
    + apply regex_test_i_spec in Hre as (pre & mid & post & -> & Hc).
      split; [|done]. intros _. eexists. split; [done|]. by exists pre, mid, post.
    + split; [done|]. intros (e & [= <-] & pre & mid & post & [= ->] & Hc).
      assert (Js.regex_test_i ("no such column: " +:+ column_name c)
                (pre +:+ mid +:+ post) = true) as Hyes
        by (apply regex_test_i_spec; by exists pre, mid, post).
      congruence.
  - split; [done|]. by intros (e & [= <-] & pre & mid & post & [=] & _).
Qed.

(** C5.  The probe of an optional column (tag_layout, sort_by) sends one
    minimal read of the column and answers from its completion: true when
    the read completes without error; false exactly when the error is a
    no-such-column condition, matched without regard to case somewhere in
    the message against the column's exact name; any other failure is
    thrown again as it is.  The probe leaves the world the read leaves. *)
Theorem probe_contract (c : Column) (w : World) :
  c = c_tag_layout \/ c = c_sort_by ->
  let read := (first_column c w).1 in
  let answer := (probe c w).1 in
  (forall v, read = Normal v -> answer = Normal true) /\
  (answer = Normal false <->
     exists e, read = Abrupt e /\ no_such_column_condition c e) /\
  (forall e, read = Abrupt e -> ~ no_such_column_condition c e ->
     answer = Abrupt e) /\
  (probe c w).2 = (first_column c w).2.
Proof.
  intros Hc. simpl. rewrite (probe_run c w Hc), first_column_world. simpl.
  split; [|split; [|split]]; [| apply probe_answer_false | | done].
  - by intros v ->.
  - intros e He Hno. pose proof (probe_answer_false c (first_column c w).1) as Hf.
    rewrite He in *. destruct e as [m|v]; simpl in *; [|done].
    destruct (Js.regex_test_i _ m); [|done].
    exfalso. apply Hno. destruct Hf as [Hf _].
    destruct (Hf eq_refl) as (e & [= <-] & Hcond). done.
Qed.

(* ================================================================== *)
(** * The assignment list and the UPDATE                              *)
(* ================================================================== *)

(** The constraints of the migration in the UPDATE: a null for
    [tag_layout] is refused for a user with a row and is no error for a
    user without one; the last value bound to a column is the one that
    counts. *)
Example update_null_refused :
  update_by_user table_new ["tag_layout = ?"] [SqlNull; SqlText "u1"] =
    (Abrupt (not_null_failed c_tag_layout), table_new) /\
  update_by_user table_new ["tag_layout = ?"] [SqlNull; SqlText "u2"] =
    (Normal (), table_new) /\
  (update_by_user table_new ["tag_layout = ?"; "tag_layout = ?"]
     [SqlNull; SqlText "masonry"; SqlText "u1"]).1 = Normal ().
Proof. vm_compute. done. Qed.

Example update_missing_column_refused :
  update_by_user table_old ["tag_layout = ?"] [SqlText "masonry"; SqlText "u1"] =
    (Abrupt (JsError "D1_ERROR: no such column: tag_layout: SQLITE_ERROR"),
     table_old).
Proof. vm_compute. done. Qed.

Ltac split_body body :=
  destruct body as [[?|] [?|] [?|] [?|] [?|] [?|]].

Lemma build_updates_length (body : UpdatePreferencesRequest) (tl sb : bool) :
  length (build_updates body tl sb).2 = length (build_updates body tl sb).1.
Proof. split_body body; destruct tl, sb; reflexivity. Qed.

(** The UPDATE the handler builds, run on a table: it fails on a column
    the table lacks and changes nothing, or it leaves [patched_db]. *)
Lemma update_build (d : Db) (body : UpdatePreferencesRequest) (tl sb : bool)
    (now uid : string) :
  let us := (build_updates body tl sb).1 ++ ["updated_at = ?"] in
  let vs := ((build_updates body tl sb).2 ++ [SqlText now]) ++ [SqlText uid] in
  (exists e, update_by_user d us vs = (Abrupt e, d)) \/
  update_by_user d us vs = (Normal (), patched_db body tl sb now uid d).
Proof.
  destruct d as [ht hs rs].
  assert (forall f g : Row -> Row, (forall r, f r = g r) ->
            alter f uid rs = alter g uid rs) as Halter.
  { intros f g Hfg. apply map_eq. intros k. rewrite !lookup_alter.
    case_decide; [|done]. by apply option_fmap_ext. }
  split_body body; destruct tl, sb, ht, hs; simpl;
    unfold update_by_user, patched_db; simpl;
    first [ left; eexists; reflexivity
          | right; f_equal; f_equal; apply Halter; by intros [] ].
Qed.

(** When the probes answer true only for columns the table has, the
    UPDATE goes through. *)
Lemma update_build_ok (d : Db) (body : UpdatePreferencesRequest) (tl sb : bool)
    (now uid : string) :
  (tl = true -> has_tag_layout d = true) ->
  (sb = true -> has_sort_by d = true) ->
  update_by_user d ((build_updates body tl sb).1 ++ ["updated_at = ?"])
    (((build_updates body tl sb).2 ++ [SqlText now]) ++ [SqlText uid]) =
  (Normal (), patched_db body tl sb now uid d).
Proof.
  intros Htl Hsb.
  destruct (update_build d body tl sb now uid) as [[e He]|Hok]; [|done].
  exfalso. revert He. destruct d as [ht hs rs]. simpl in *.
  split_body body; destruct tl, sb; simpl;
    try rewrite (Htl eq_refl); try rewrite (Hsb eq_refl);
    unfold update_by_user; simpl;
    destruct ht, hs; simpl; discriminate.
Qed.
(* ================================================================== *)
(** * Running the handlers                                            *)
(* ================================================================== *)

Lemma no_faults_head (l : list Step) :
  no_faults l -> fault (default quiet (head l)) = None.
Proof. destruct 1; simpl; done. Qed.

Lemma no_faults_tail (l : list Step) : no_faults l -> no_faults (tail l).
Proof. destruct 1; simpl; [constructor|done]. Qed.

Lemma statement_quiet {A} (s : Stmt) (sem : Db -> Completion A * Db) (w : World) :
  fault (default quiet (head (sched w))) = None ->
  statement s sem w = ((sem (db w)).1, tick s (sem (db w)).2 w).
Proof. unfold statement. intros ->. by destruct (sem (db w)). Qed.

Lemma statement_fault {A} (s : Stmt) (sem : Db -> Completion A * Db) (w : World)
    (e : Thrown) :
  fault (default quiet (head (sched w))) = Some e ->
  statement s sem w = (Abrupt e, tick s (db w) w).
Proof. unfold statement. by intros ->. Qed.

Lemma clock_tick (s : Stmt) (d : Db) (w : World) : clock w <= clock (tick s d w).
Proof. simpl. lia. Qed.

(** ** GET *)

Lemma onRequestGet_quiet (context : Context) (w : World) :
  fault (default quiet (head (sched w))) = None ->
  onRequestGet context w =
  (Normal match rows (db w) !! data_user_id context with
          | None => notFound "Preferences not found"
          | Some r => success (project (fetch (db w) (data_user_id context) r))
          end,
   tick (SelectByUserId (data_user_id context)) (db w) w).
Proof.
  intros Hq. unfold onRequestGet, try_catch, mbind, M_bind, first_by_user.
  rewrite (statement_quiet _ _ _ Hq). simpl. unfold select_by_user.
  by destruct (rows (db w) !! data_user_id context).
Qed.

Lemma onRequestGet_db (context : Context) (w : World) :
  db (onRequestGet context w).2 = db w.
Proof.
  unfold onRequestGet, try_catch, mbind, M_bind, first_by_user, statement.
  destruct (fault _); simpl; [done|].
  by destruct (select_by_user _ _).
Qed.

Lemma project_fetch (d : Db) (uid : string) (r : Row) :
  project (fetch d uid r) = shown d r.
Proof.
  unfold project, fetch, shown, with_default. simpl.
  destruct (has_tag_layout d), (has_sort_by d); simpl;
    repeat case_decide; subst; simpl; try done;
    destruct (row_tag_layout r), (row_sort_by r); done.
Qed.

(** ** PATCH: the probes *)

Lemma onRequestPatch_tail (context : Context) :
  onRequestPatch context =
  try_catch
    (body ← json context;
     tl ← hasTagLayoutColumn;
     sb ← hasSortByColumn;
     patch_tail (data_user_id context) body tl sb)
    patch_catch.
Proof. reflexivity. Qed.

Lemma hasTagLayoutColumn_run (w : World) :
  hasTagLayoutColumn w =
  (probe_answer "no such column: tag_layout" (first_column c_tag_layout w).1,
   tick (SelectColumnLimit1 c_tag_layout) (db w) w).
Proof. exact (probe_run c_tag_layout w (or_introl eq_refl)). Qed.

Lemma hasSortByColumn_run (w : World) :
  hasSortByColumn w =
  (probe_answer "no such column: sort_by" (first_column c_sort_by w).1,
   tick (SelectColumnLimit1 c_sort_by) (db w) w).
Proof. exact (probe_run c_sort_by w (or_intror eq_refl)). Qed.

Lemma probes_world (w : World) :
  (hasSortByColumn (hasTagLayoutColumn w).2).2 = after_probes w.
Proof. by rewrite hasTagLayoutColumn_run, hasSortByColumn_run. Qed.

(** Without an injected failure a probe answers what the table has. *)
Lemma probe_quiet (c : Column) (w : World) :
  c = c_tag_layout \/ c = c_sort_by ->
  fault (default quiet (head (sched w))) = None ->
  (probe c w).1 = Normal (column_exists (db w) c).
Proof.
  intros Hc Hq. rewrite (probe_run c w Hc). simpl.
  unfold first_column. rewrite (statement_quiet _ _ _ Hq). simpl.
  unfold select_column.
  destruct Hc as [-> | ->]; simpl; by destruct (db w) as [[] [] ?].
Qed.

(** A probe answers true only for a column the table has. *)
Lemma probe_true (c : Column) (w : World) :
  c = c_tag_layout \/ c = c_sort_by ->
  (probe c w).1 = Normal true -> column_exists (db w) c = true.
Proof.
  intros Hc. rewrite (probe_run c w Hc). simpl.
  unfold first_column, statement, select_column.
  destruct (fault _) as [[m|v]|]; simpl.
  - by destruct (Js.regex_test_i _ m).
  - done.
  - destruct (column_exists (db w) c); simpl; [done|].
    by destruct Hc as [-> | ->].
Qed.

(** The handler once both probes have answered. *)
Lemma patch_with_answers (context : Context) (w : World)
    (body : UpdatePreferencesRequest) (tl sb : bool) :
  request_json context = Normal body ->
  (hasTagLayoutColumn w).1 = Normal tl ->
  (hasSortByColumn (hasTagLayoutColumn w).2).1 = Normal sb ->
  onRequestPatch context w =
  try_catch (patch_tail (data_user_id context) body tl sb) patch_catch
            (after_probes w).
Proof.
  intros Hb Htl Hsb. rewrite <- probes_world, onRequestPatch_tail.
  unfold try_catch, mbind, M_bind, json. rewrite Hb.
  destruct (hasTagLayoutColumn w) as [a1 w1]. simpl in *. subst a1.
  destruct (hasSortByColumn w1) as [a2 w2]. simpl in *. by subst a2.
Qed.

(** Without injected failures the probes answer what the table has. *)
Lemma patch_quiet (context : Context) (w : World)
    (body : UpdatePreferencesRequest) :
  request_json context = Normal body ->
  no_faults (sched w) ->
  onRequestPatch context w =
  try_catch (patch_tail (data_user_id context) body
                        (has_tag_layout (db w)) (has_sort_by (db w)))
            patch_catch (after_probes w).
Proof.
  intros Hb Hq. apply patch_with_answers; [done| |].
  - apply (probe_quiet c_tag_layout w); [by left|by apply no_faults_head].
  - rewrite hasTagLayoutColumn_run. simpl.
    apply (probe_quiet c_sort_by (tick _ (db w) w)); [by right|].
    simpl. by apply no_faults_head, no_faults_tail.
Qed.

(** The handler always answers; when a probe throws, or the body cannot
    be read, it answers before the validation, with the table as it was
    and nothing but probes sent. *)
Lemma patch_early (context : Context) (w : World) :
  (exists w', onRequestPatch context w =
              (Normal (internalError "Failed to update preferences"), w') /\
              db w' = db w /\
              exists sent, trace w' = trace w ++ sent /\
                           Forall (fun s => is_update s = false) sent) \/
  (exists body tl sb,
     request_json context = Normal body /\
     (hasTagLayoutColumn w).1 = Normal tl /\
     (hasSortByColumn (hasTagLayoutColumn w).2).1 = Normal sb).
Proof.
  destruct (request_json context) as [body|e] eqn:Hb.
  2:{ left. eexists. rewrite onRequestPatch_tail.
      unfold try_catch, mbind, M_bind, json. rewrite Hb. simpl.
      split; [reflexivity|]. split; [done|]. exists []. by rewrite app_nil_r. }
  destruct (hasTagLayoutColumn w).1 as [tl|e1] eqn:H1.
  2:{ left. eexists. rewrite onRequestPatch_tail.
      unfold try_catch at 1, mbind, M_bind, json. rewrite Hb.
      rewrite hasTagLayoutColumn_run in *. simpl in *. rewrite H1. simpl.
      split; [reflexivity|]. split; [done|]. eexists. split; [done|].
      by repeat constructor. }
  destruct (hasSortByColumn (hasTagLayoutColumn w).2).1 as [sb|e2] eqn:H2.
  2:{ left. eexists. rewrite onRequestPatch_tail.
      unfold try_catch at 1, mbind, M_bind, json. rewrite Hb.
      rewrite hasTagLayoutColumn_run in *. simpl in *. rewrite H1.
      rewrite hasSortByColumn_run in *. simpl in *. rewrite H2. simpl.
      split; [reflexivity|]. split; [done|]. eexists.
      split; [simpl; by rewrite <- app_assoc|]. by repeat constructor. }
  right. by exists body, tl, sb.
Qed.

(** ** PATCH: after the probes *)

Ltac run_tail :=
  unfold try_catch, patch_tail, patch_catch, mbind, M_bind, mret, M_ret,
    console_error, new_Date_toISOString, first_by_user, run_update.

Lemma tail_reject (uid : string) (body : UpdatePreferencesRequest)
    (tl sb : bool) (w : World) (r : Response) :
  validate body = Some r ->
  try_catch (patch_tail uid body tl sb) patch_catch w = (Normal r, w).
Proof. intros Hv. run_tail. by rewrite Hv. Qed.

Lemma tail_nothing (uid : string) (body : UpdatePreferencesRequest)
    (tl sb : bool) (w : World) :
  validate body = None ->
  (build_updates body tl sb).1 = [] ->
  masked body tl sb = false ->
  try_catch (patch_tail uid body tl sb) patch_catch w =
  (Normal (badRequest "No valid fields to update"), w).
Proof.
  intros Hv He Hm. run_tail. rewrite Hv.
  destruct (build_updates body tl sb) as [us vs]. simpl in He. subst us.
  unfold masked in Hm. simpl. by rewrite Hm.
Qed.

Lemma tail_noop (uid : string) (body : UpdatePreferencesRequest)
    (tl sb : bool) (w : World) :
  validate body = None ->
  (build_updates body tl sb).1 = [] ->
  masked body tl sb = true ->
  let res := try_catch (patch_tail uid body tl sb) patch_catch w in
  db res.2 = db w /\
  trace res.2 = trace w ++ [SelectByUserId uid] /\
  clock w <= clock res.2 /\
  reread (db w) uid "Failed to load preferences" res.1 /\
  (fault (default quiet (head (sched w))) = None ->
   res = (Normal match rows (db w) !! uid with
                 | None => internalError "Failed to load preferences"
                 | Some r => success (project (fetch (db w) uid r))
                 end,
          tick (SelectByUserId uid) (db w) w)).
Proof.
  intros Hv He Hm. run_tail. rewrite Hv.
  destruct (build_updates body tl sb) as [us vs]. simpl in He. subst us.
  unfold masked in Hm. simpl. rewrite Hm. unfold statement, reread.
  destruct (fault _) as [e|]; simpl.
  { repeat split; [lia|by left|done]. }
  unfold select_by_user.
  destruct (rows (db w) !! uid) as [r|] eqn:Hr; simpl.
  - repeat split; [lia|]. right; right; by exists r.
  - repeat split; [lia|]. right; by left.
Qed.

Lemma tail_update (uid : string) (body : UpdatePreferencesRequest)
    (tl sb : bool) (w : World) :
  validate body = None ->
  (build_updates body tl sb).1 <> [] ->
  let now := Js.toISOString (clock w) in
  let upd := update_stmt body tl sb now uid in
  let d' := patched_db body tl sb now uid (db w) in
  let res := try_catch (patch_tail uid body tl sb) patch_catch w in
  clock w <= clock res.2 /\
  ((db res.2 = db w /\
    trace res.2 = trace w ++ [upd] /\
    res.1 = Normal (internalError "Failed to update preferences")) \/
   (db res.2 = d' /\
    trace res.2 = trace w ++ [upd; SelectByUserId uid] /\
    reread d' uid "Failed to load preferences after update" res.1)).
Proof.
  intros Hv Hne. simpl.
  pose proof (update_build (db w) body tl sb (Js.toISOString (clock w)) uid)
    as Hupd.
  unfold update_stmt. run_tail. rewrite Hv.
  destruct (build_updates body tl sb) as [us vs]. simpl in *.
  destruct us as [|u us]; [done|]. simpl in *.
  destruct (fault (default quiet (head (sched w)))) as [e|] eqn:Hf.
  { rewrite (statement_fault _ _ w e Hf). simpl. split; [lia|by left]. }
  rewrite (statement_quiet _ _ w Hf). simpl.
  destruct Hupd as [[e He]|Hok].
  { rewrite He. simpl. split; [lia|by left]. }
  rewrite Hok. simpl.
  match goal with |- context [statement ?s ?sem ?w1] =>
    destruct (fault (default quiet (head (sched w1)))) as [e|] eqn:Hf2;
    [rewrite (statement_fault s sem w1 e Hf2)
    |rewrite (statement_quiet s sem w1 Hf2)]
  end; unfold reread, select_by_user; simpl.
  { rewrite <- (app_assoc (trace w)). split; [lia|]. right.
    repeat split. by left. }
  destruct (alter _ uid (rows (db w)) !! uid) as [r|] eqn:Hr; simpl;
    rewrite <- (app_assoc (trace w)); (split; [lia|]); right.
  - repeat split. right; right. by exists r.
  - repeat split. right; by left.
Qed.

(** Without injected failures, and with probes that told the truth, the
    UPDATE and the read that follows go through. *)
Lemma tail_update_quiet (uid : string) (body : UpdatePreferencesRequest)
    (tl sb : bool) (w : World) :
  validate body = None ->
  (build_updates body tl sb).1 <> [] ->
  (tl = true -> has_tag_layout (db w) = true) ->
  (sb = true -> has_sort_by (db w) = true) ->
  no_faults (sched w) ->
  let now := Js.toISOString (clock w) in
  let upd := update_stmt body tl sb now uid in
  let d' := patched_db body tl sb now uid (db w) in
  try_catch (patch_tail uid body tl sb) patch_catch w =
  (Normal match rows d' !! uid with
          | None => internalError "Failed to load preferences after update"
          | Some r => success (project (fetch d' uid r))
          end,
   tick (SelectByUserId uid) d' (tick upd d' w)).
Proof.
  intros Hv Hne Htl Hsb Hq. simpl.
  pose proof (update_build_ok (db w) body tl sb (Js.toISOString (clock w)) uid
                Htl Hsb) as Hupd.
  unfold update_stmt. run_tail. rewrite Hv.
  destruct (build_updates body tl sb) as [us vs]. simpl in *.
  destruct us as [|u us]; [done|]. simpl in *.
  rewrite (statement_quiet _ _ w (no_faults_head _ Hq)). simpl.
  rewrite Hupd. simpl.
  rewrite statement_quiet
    by (simpl; by apply no_faults_head, no_faults_tail).
  simpl. unfold select_by_user. simpl.
  by destruct (alter _ uid (rows (db w)) !! uid).
Qed.

Lemma validate_bad (body : UpdatePreferencesRequest) (r : Response) :
  validate body = Some r -> exists message, r = badRequest message.
Proof.
  unfold validate.
  repeat match goal with |- context [if ?b then _ else _] => destruct b end;
    intros [= <-]; by eexists.
Qed.

Lemma validate_status (body : UpdatePreferencesRequest) (r : Response) :
  validate body = Some r -> status r = 400.
Proof. intros [m ->]%validate_bad. done. Qed.

(** What a request does to the table, whatever the environment does: it
    leaves it as it was, or an accepted body patches the row of the user
    at the time read after the probes. *)
Lemma tail_db (uid : string) (body : UpdatePreferencesRequest)
    (tl sb : bool) (w : World) :
  let res := try_catch (patch_tail uid body tl sb) patch_catch w in
  clock w <= clock res.2 /\
  (db res.2 = db w \/
   (validate body = None /\
    db res.2 = patched_db body tl sb (Js.toISOString (clock w)) uid (db w))).
Proof.
  simpl. destruct (validate body) as [r|] eqn:Hv.
  { rewrite (tail_reject _ _ _ _ _ _ Hv). simpl. split; [lia|by left]. }
  destruct (build_updates body tl sb).1 as [|u us] eqn:Hb.
  - destruct (masked body tl sb) eqn:Hm.
    + destruct (tail_noop uid body tl sb w Hv Hb Hm) as (Hd & _ & Hc & _).
      split; [done|by left].
    + rewrite (tail_nothing _ _ _ _ _ Hv Hb Hm). simpl. split; [lia|by left].
  - assert ((build_updates body tl sb).1 <> []) as Hne by (by rewrite Hb).
    destruct (tail_update uid body tl sb w Hv Hne) as [Hc [(Hd & _)|(Hd & _)]].
    + split; [done|by left].
    + split; [done|]. right. done.
Qed.

Lemma patch_db (context : Context) (w : World) :
  let res := onRequestPatch context w in
  db res.2 = db w \/
  exists body tl sb t,
    request_json context = Normal body /\ validate body = None /\
    clock w <= t <= clock res.2 /\
    db res.2 = patched_db body tl sb (Js.toISOString t) (data_user_id context)
                          (db w).
Proof.
  simpl. destruct (patch_early context w) as
    [(w' & -> & Hd & _)|(body & tl & sb & Hb & Htl & Hsb)]; [by left|].
  rewrite (patch_with_answers _ _ _ _ _ Hb Htl Hsb).
  destruct (tail_db (data_user_id context) body tl sb (after_probes w))
    as [Hc [Hd|[Hv Hd]]]; [by left|].
  right. exists body, tl, sb, (clock (after_probes w)).
  repeat split; try done. simpl. lia.
Qed.

Lemma patch_total (context : Context) (w : World) :
  exists r, (onRequestPatch context w).1 = Normal r.
Proof.
  rewrite onRequestPatch_tail. unfold try_catch, patch_catch, mbind, M_bind.
  destruct (json context w) as [[body|e] w0]; simpl; [|by eexists].
  destruct (hasTagLayoutColumn w0) as [[tl|e] w1]; simpl; [|by eexists].
  destruct (hasSortByColumn w1) as [[sb|e] w2]; simpl; [|by eexists].
  destruct (patch_tail _ body tl sb w2) as [[r|e] w3]; simpl; by eexists.
Qed.

(** ** The row after an accepted body *)

Lemma patched_get (c : Column) (body : UpdatePreferencesRequest) (tl sb : bool)
    (now : string) (r : Row) :
  row_get c (patched body tl sb now r) =
  if decide (c = c_updated_at) then SqlText now
  else if supported c tl sb then default (row_get c r) (body_field c body)
  else row_get c r.
Proof. destruct c; simpl; try done; by destruct tl, sb. Qed.

(** A column the body does not name keeps its value. *)
Lemma patched_frame (c : Column) (body : UpdatePreferencesRequest)
    (tl sb : bool) (now : string) (r : Row) :
  c <> c_updated_at -> body_field c body = None ->
  row_get c (patched body tl sb now r) = row_get c r.
Proof.
  intros Hc Hf. rewrite patched_get, Hf. simpl.
  case_decide; [done|]. by destruct (supported c tl sb).
Qed.

(** Patching twice with the same body is patching once, up to the
    time. *)
Lemma patched_twice (c : Column) (body : UpdatePreferencesRequest)
    (tl sb : bool) (now1 now2 : string) (r : Row) :
  c <> c_updated_at ->
  row_get c (patched body tl sb now2 (patched body tl sb now1 r)) =
  row_get c (patched body tl sb now1 r).
Proof.
  intros Hc. rewrite !patched_get. case_decide; [done|].
  destruct (supported c tl sb); [|done]. by destruct (body_field c body).
Qed.

Lemma shown_get (c : Column) (d : Db) (r : Row) :
  column_exists d c = true -> row_get c r <> SqlNull ->
  out_get c (shown d r) = row_get c r.
Proof.
  destruct c; simpl; try done; intros -> Hn; unfold with_default;
    by case_decide.
Qed.

(** The fields shown depend on the table through its two flags only. *)
Lemma shown_ext (c : Column) (d1 d2 : Db) (r1 r2 : Row) :
  has_tag_layout d1 = has_tag_layout d2 ->
  has_sort_by d1 = has_sort_by d2 ->
  row_get c r1 = row_get c r2 ->
  out_get c (shown d1 r1) = out_get c (shown d2 r2).
Proof.
  destruct c; simpl; intros H1 H2 H3; by rewrite ?H1, ?H2, ?H3.
Qed.

Lemma stored_patched (c : Column) (uid k : string)
    (body : UpdatePreferencesRequest) (tl sb : bool) (now : string) (d : Db) :
  row_get c <$> rows (patched_db body tl sb now uid d) !! k =
  if decide (uid = k)
  then row_get c <$> (patched body tl sb now <$> rows d !! k)
  else row_get c <$> rows d !! k.
Proof. simpl. rewrite lookup_alter. by destruct (decide (uid = k)) as [->|]. Qed.

(** A field of the body whose column the probes report is in the lists
    the handler builds. *)
Lemma build_updates_mem (c : Column) (body : UpdatePreferencesRequest)
    (tl sb : bool) (v : SQLParam) :
  body_field c body = Some v -> supported c tl sb = true ->
  (column_name c +:+ " = ?") ∈ (build_updates body tl sb).1 /\
  v ∈ (build_updates body tl sb).2.
Proof.
  intros Hf Hs.
  destruct c, tl, sb; simpl in Hs; try discriminate;
    split_body body; simpl in Hf; try discriminate; injection Hf as <-;
    split; cbn; by repeat constructor.
Qed.

(** A field whose column the probes report missing is not. *)
Lemma build_updates_masked (c : Column) (body : UpdatePreferencesRequest)
    (tl sb : bool) :
  supported c tl sb = false ->
  (column_name c +:+ " = ?") ∉ (build_updates body tl sb).1.
Proof.
  intros Hs Hin. apply list_elem_of_In in Hin. revert Hin.
  destruct c, tl, sb; simpl in Hs; try discriminate; split_body body;
    cbn; intuition discriminate.
Qed.

(** An accepted body with something to write, a store that does not
    fail and a user with a row: the row is patched at the time read after
    the probes, and the response shows the patched row. *)
Lemma patch_quiet_written (context : Context) (body : UpdatePreferencesRequest)
    (w : World) (r : Row) :
  request_json context = Normal body ->
  validate body = None ->
  no_faults (sched w) ->
  rows (db w) !! data_user_id context = Some r ->
  let tl := has_tag_layout (db w) in
  let sb := has_sort_by (db w) in
  (build_updates body tl sb).1 <> [] ->
  let now := Js.toISOString (clock (after_probes w)) in
  let r' := patched body tl sb now r in
  let res := onRequestPatch context w in
  res.1 = Normal (success (shown (db w) r')) /\
  db res.2 = patched_db body tl sb now (data_user_id context) (db w) /\
  rows (db res.2) !! data_user_id context = Some r' /\
  clock (after_probes w) <= clock res.2.
Proof.
  intros Hb Hv Hq Hr tl sb Hne. simpl.
  rewrite (patch_quiet _ _ _ Hb Hq).
  rewrite tail_update_quiet; try done.
  2:{ simpl. by apply no_faults_tail, no_faults_tail. }
  simpl. rewrite lookup_alter. case_decide; [|done]. rewrite Hr. simpl.
  rewrite project_fetch. repeat split; lia.
Qed.

(** ** The checks of the validation *)

Lemma includes_In (l : list string) (x : string) :
  Js.includes l x = true <-> In x l.
Proof.
  induction l as [|y l IH]; simpl; [by split|].
  rewrite orb_true_iff, String.eqb_eq, IH. tauto.
Qed.

Lemma not_among_false (l : list string) (f : option string) :
  not_among l f = false <-> forall v, f = Some v -> v = "" \/ In v l.
Proof.
  destruct f as [v|]; simpl; [|by split].
  destruct v as [|a v]; simpl.
  - split; [|done]. intros _ v' [= <-]. by left.
  - rewrite negb_false_iff, includes_In. split.
    + intros Hin v' [= <-]. by right.
    + intros H. by destruct (H _ eq_refl).
Qed.

Lemma out_of_range_false (f : option Z) :
  out_of_range f = false <-> forall n, f = Some n -> n = 0 \/ 10 <= n <= 100.
Proof.
  destruct f as [n|]; simpl; [|by split]. unfold Js.truthy_number. split.
  - intros H n' [= <-]. destruct (Z.eqb_spec n 0); [by left|]. right.
    simpl in H. apply orb_false_iff in H as [H1 H2]. lia.
  - intros H. destruct (H _ eq_refl) as [->|?]; [done|].
    destruct (Z.eqb_spec n 0); simpl; [done|].
    apply orb_false_iff. lia.
Qed.

(** The check of each column, in the words of [field_accepted]. *)
Lemma text_check (c : Column) (f : option string)
    (body : UpdatePreferencesRequest) :
  c ∈ text_columns -> body_field c body = SqlText <$> f ->
  not_among (allowed c) f = false <-> field_accepted c body.
Proof.
  intros Hc Hf. rewrite not_among_false. unfold field_accepted, falsy.
  rewrite Hf. split.
  - intros H v Hv. destruct f as [s|]; [|done]. injection Hv as <-.
    destruct (H s eq_refl) as [->|Hin]; [by left; left|right].
    unfold text_columns in Hc.
    repeat (apply elem_of_cons in Hc as [->|Hc]); try done.
    by apply not_elem_of_nil in Hc.
  - intros H s ->. destruct (H _ eq_refl) as [[[= ->]|[=]]|Hin]; [by left|].
    right. unfold text_columns in Hc.
    repeat (apply elem_of_cons in Hc as [->|Hc]); try done.
    by apply not_elem_of_nil in Hc.
Qed.

Lemma size_check (body : UpdatePreferencesRequest) :
  out_of_range (body_page_size body) = false <->
  field_accepted c_page_size body.
Proof.
  rewrite out_of_range_false. unfold field_accepted, falsy. simpl. split.
  - intros H v Hv. destruct (body_page_size body) as [n|]; [|done].
    injection Hv as <-. destruct (H n eq_refl) as [->|?]; [left; by right|].
    by right.
  - intros H n Hn. rewrite Hn in H.
    destruct (H _ eq_refl) as [[[=]|[= ->]]|?]; [by left|by right].
Qed.

Ltac checks body :=
  pose proof (text_check c_theme (body_theme body) body
                ltac:(by repeat constructor) eq_refl) as Ht;
  pose proof (size_check body) as Hp;
  pose proof (text_check c_view_mode (body_view_mode body) body
                ltac:(by repeat constructor) eq_refl) as Hm;
  pose proof (text_check c_density (body_density body) body
                ltac:(by repeat constructor) eq_refl) as Hd;
  pose proof (text_check c_tag_layout (body_tag_layout body) body
                ltac:(by repeat constructor) eq_refl) as Hl;
  pose proof (text_check c_sort_by (body_sort_by body) body
                ltac:(by repeat constructor) eq_refl) as Hs;
  simpl allowed in *.

Lemma validate_none_iff (body : UpdatePreferencesRequest) :
  validate body = None <-> forall c, field_accepted c body.
Proof.
  checks body. unfold validate. split.
  - repeat match goal with |- context [if ?b then _ else _] =>
      destruct b; [discriminate|] end.
    intros _ c. destruct c; try tauto. by intros v.
  - intros H.
    rewrite (proj2 Ht (H _)), (proj2 Hp (H _)), (proj2 Hm (H _)),
            (proj2 Hd (H _)), (proj2 Hl (H _)), (proj2 Hs (H _)). done.
Qed.

(* ================================================================== *)
(** * The claims of the specification                                 *)
(* ================================================================== *)

(** Witness of C5: the probe of [tag_layout] on the table from before
    the migration. *)
Lemma probe_contract_witness :
  (c_tag_layout = c_tag_layout \/ c_tag_layout = c_sort_by) /\
  ((probe c_tag_layout world_old).1 = Normal false <->
   exists e, (first_column c_tag_layout world_old).1 = Abrupt e /\
             no_such_column_condition c_tag_layout e).
Proof.
  split; [by left|].
  exact (proj1 (proj2 (probe_contract c_tag_layout world_old
                         (or_introl eq_refl)))).
Defined.

(** ** GetPreferences *)

(** C6.  When the user has a row and the read does not fail,
    GetPreferences answers success with the projection of the row: every
    field is the stored value, but "grid" stands for a missing or null
    tag_layout and "popular" for a missing or null sort_by.  The table is
    as before and the only statement sent is the read of the row. *)
Theorem get_projection (context : Context) (w : World) (r : Row) :
  rows (db w) !! data_user_id context = Some r ->
  fault (default quiet (head (sched w))) = None ->
  let res := onRequestGet context w in
  res.1 = Normal (success (shown (db w) r)) /\
  db res.2 = db w /\
  trace res.2 = trace w ++ [SelectByUserId (data_user_id context)].
Proof.
  intros Hr Hq. simpl. rewrite (onRequestGet_quiet _ _ Hq), Hr. simpl.
  by rewrite project_fetch.
Qed.

Lemma get_projection_witness :
  rows (db world_old) !! data_user_id (as_user "u1" empty_body) = Some row0 /\
  fault (default quiet (head (sched world_old))) = None /\
  (onRequestGet (as_user "u1" empty_body) world_old).1 =
  Normal (success (mkPreferences
    (SqlText "light") (SqlNumber 20) (SqlText "list") (SqlText "normal")
    (SqlText "grid") (SqlText "popular") (SqlText "2024-01-01T00:00:00.000Z"))).
Proof.
  split; [reflexivity|]. split; [reflexivity|].
  exact (proj1 (get_projection (as_user "u1" empty_body) world_old row0
                  eq_refl eq_refl)).
Defined.

(** ** UpdatePreferences: validation *)

(** Counterexample of C1: a body with the view mode "bogus" is answered
    with BadInput, but by then the two probes have read the store. *)
Lemma bogus_view_mode_reads_store :
  let res := onRequestPatch (as_user "u1" view_mode_bogus) world_new in
  res.1 = Normal (badRequest "Invalid view mode") /\
  trace world_new = [] /\
  trace res.2 = [SelectColumnLimit1 c_tag_layout; SelectColumnLimit1 c_sort_by] /\
  trace res.2 <> trace world_new.
Proof. vm_compute. repeat split. discriminate. Qed.

(** A store that fails at the first probe turns the same request into an
    Internal response. *)
Example bogus_view_mode_store_down :
  (onRequestPatch (as_user "u1" view_mode_bogus)
     (mkWorld table_new [mkStep 5 (Some (JsError "D1_ERROR: Network connection lost."))]
              1700000000123 [] [])).1 =
  Normal (internalError "Failed to update preferences").
Proof. vm_compute. reflexivity. Qed.

(** A body the validation rejects is answered after the probes. *)
Lemma rejected_after_probes (context : Context)
    (body : UpdatePreferencesRequest) (w : World) (rejection : Response) :
  request_json context = Normal body ->
  validate body = Some rejection ->
  let res := onRequestPatch context w in
  db res.2 = db w /\
  (exists sent, trace res.2 = trace w ++ sent /\
                Forall (fun s => is_update s = false) sent) /\
  (forall tl sb,
     (hasTagLayoutColumn w).1 = Normal tl ->
     (hasSortByColumn (hasTagLayoutColumn w).2).1 = Normal sb ->
     res.1 = Normal rejection /\ status rejection = 400 /\
     trace res.2 =
       trace w ++ [SelectColumnLimit1 c_tag_layout; SelectColumnLimit1 c_sort_by]).
Proof.
  intros Hb Hv. simpl.
  assert (forall tl sb,
     (hasTagLayoutColumn w).1 = Normal tl ->
     (hasSortByColumn (hasTagLayoutColumn w).2).1 = Normal sb ->
     onRequestPatch context w = (Normal rejection, after_probes w)) as Hrun.
  { intros tl sb Htl Hsb.
    by rewrite (patch_with_answers _ _ _ _ _ Hb Htl Hsb),
               (tail_reject _ _ _ _ _ _ Hv). }
  split; [|split].
  - destruct (patch_early context w) as
      [(w' & -> & Hd & _)|(body' & tl & sb & _ & Htl & Hsb)]; [done|].
    by rewrite (Hrun tl sb Htl Hsb).
  - destruct (patch_early context w) as
      [(w' & -> & _ & Hs)|(body' & tl & sb & _ & Htl & Hsb)]; [done|].
    rewrite (Hrun tl sb Htl Hsb). simpl. eexists.
    split; [by rewrite <- app_assoc|]. by repeat constructor.
  - intros tl sb Htl Hsb. rewrite (Hrun tl sb Htl Hsb). simpl.
    split; [done|]. split; [by eapply validate_status|].
    by rewrite <- app_assoc.
Qed.

(** C1, amended.  A body is rejected by the validation when one of its
    fields holds a value that is checked and fails its check: a string
    that is not empty and not an allowed value of the field, or a page
    size that is not zero and not from 10 to 100 (the empty string and
    zero are not checked).  For such a body the handler first sends the
    two probes.  When both answer, the response is the BadInput (400) of
    the validation and nothing else was sent: no read of the row and no
    write.  Whatever the probes do, the table is as before and no UPDATE
    is sent. *)
Theorem invalid_body_rejected (context : Context)
    (body : UpdatePreferencesRequest) (w : World) (c : Column) (v : SQLParam) :
  request_json context = Normal body ->
  body_field c body = Some v ->
  ~ falsy v ->
  ~ in_domain c v ->
  let res := onRequestPatch context w in
  db res.2 = db w /\
  (exists sent, trace res.2 = trace w ++ sent /\
                Forall (fun s => is_update s = false) sent) /\
  (forall tl sb,
     (hasTagLayoutColumn w).1 = Normal tl ->
     (hasSortByColumn (hasTagLayoutColumn w).2).1 = Normal sb ->
     exists message,
       validate body = Some (badRequest message) /\
       res.1 = Normal (badRequest message) /\
       status (badRequest message) = 400 /\
       trace res.2 =
         trace w ++ [SelectColumnLimit1 c_tag_layout;
                     SelectColumnLimit1 c_sort_by]).
Proof.
  intros Hb Hf Hnf Hnd.
  destruct (validate body) as [rejection|] eqn:Hv.
  2:{ exfalso.
      destruct (proj1 (validate_none_iff body) Hv c v Hf); tauto. }
  destruct (validate_bad _ _ Hv) as [message ->].
  destruct (rejected_after_probes context body w _ Hb Hv) as (Hd & Hs & Hr).
  split; [exact Hd|]. split; [exact Hs|].
  intros tl sb Htl Hsb. exists message.
  destruct (Hr tl sb Htl Hsb) as (H1 & H2 & H3). done.
Qed.

Lemma invalid_body_rejected_witness :
  request_json (as_user "u1" view_mode_bogus) = Normal view_mode_bogus /\
  body_field c_view_mode view_mode_bogus = Some (SqlText "bogus") /\
  ~ falsy (SqlText "bogus") /\
  ~ in_domain c_view_mode (SqlText "bogus") /\
  db (onRequestPatch (as_user "u1" view_mode_bogus) world_old).2 = db world_old.
Proof.
  assert (~ falsy (SqlText "bogus")) as Hnf by (by intros [[=]|[=]]).
  assert (~ in_domain c_view_mode (SqlText "bogus")) as Hnd
    by (simpl; intuition discriminate).
  do 2 (split; [reflexivity|]). split; [exact Hnf|]. split; [exact Hnd|].
  exact (proj1 (invalid_body_rejected (as_user "u1" view_mode_bogus)
                  view_mode_bogus world_old c_view_mode (SqlText "bogus")
                  eq_refl eq_refl Hnf Hnd)).
Defined.

(** The two values the validation does not check are not rejected: with
    the empty theme or a page size of zero the request goes on to the
    UPDATE. *)
Example falsy_values_not_rejected :
  validate theme_empty = None /\ validate page_size_zero = None.
Proof. done. Qed.

(** ** A user without a row *)

(** Counterexample of C2: for a user without a row an update with a
    valid theme is answered with Internal (500), not with NotFound. *)
Lemma update_without_row_is_internal :
  let res := onRequestPatch (as_user "u2" theme_dark) world_new in
  rows (db world_new) !! "u2" = None /\
  res.1 = Normal (internalError "Failed to load preferences after update") /\
  (forall r, res.1 = Normal r -> status r = 500) /\
  ~ (exists message, res.1 = Normal (notFound message)).
Proof.
  vm_compute. repeat split.
  - by intros r [= <-].
  - by intros (m & [=]).
Qed.

(** C2, amended.  For a user without a row, GetPreferences answers
    NotFound when the read does not fail; UpdatePreferences answers
    BadInput (400) or Internal (500), never NotFound and never success.
    Neither handler creates a row, for this user or any other. *)
Theorem missing_row (context : Context) (w : World) :
  rows (db w) !! data_user_id context = None ->
  let get := onRequestGet context w in
  let patch := onRequestPatch context w in
  (fault (default quiet (head (sched w))) = None ->
   get.1 = Normal (notFound "Preferences not found")) /\
  (exists r, patch.1 = Normal r /\ (status r = 400 \/ status r = 500)) /\
  (forall k, rows (db w) !! k = None ->
             rows (db get.2) !! k = None /\ rows (db patch.2) !! k = None).
Proof.
  intros Hr. simpl. split; [|split].
  - intros Hq. by rewrite (onRequestGet_quiet _ _ Hq), Hr.
  - destruct (patch_early context w) as
      [(w' & -> & _)|(body & tl & sb & Hb & Htl & Hsb)].
    { eexists. split; [done|]. by right. }
    rewrite (patch_with_answers _ _ _ _ _ Hb Htl Hsb).
    destruct (validate body) as [rej|] eqn:Hv.
    { rewrite (tail_reject _ _ _ _ _ _ Hv). eexists. split; [done|].
      left. by eapply validate_status. }
    destruct (build_updates body tl sb).1 as [|u us] eqn:Hbu.
    + destruct (masked body tl sb) eqn:Hm.
      * destruct (tail_noop (data_user_id context) body tl sb (after_probes w)
                    Hv Hbu Hm) as (_ & _ & _ & [->|[[_ ->]|(r & Hr' & _)]] & _).
        -- eexists. split; [done|by right].
        -- eexists. split; [done|by right].
        -- simpl in Hr'. congruence.
      * rewrite (tail_nothing _ _ _ _ _ Hv Hbu Hm). eexists.
        split; [done|by left].
    + assert ((build_updates body tl sb).1 <> []) as Hne by (by rewrite Hbu).
      destruct (tail_update (data_user_id context) body tl sb (after_probes w)
                  Hv Hne) as
        [_ [(_ & _ & ->)|(_ & _ & [->|[[_ ->]|(r & Hr' & _)]])]].
      * eexists. split; [done|by right].
      * eexists. split; [done|by right].
      * eexists. split; [done|by right].
      * simpl in Hr'. rewrite lookup_alter in Hr'.
        case_decide; [|done]. by rewrite Hr in Hr'.
  - intros k Hk. split; [by rewrite onRequestGet_db|].
    destruct (patch_db context w) as [->|(body & tl & sb & t & _ & _ & _ & ->)];
      [done|].
    simpl. rewrite lookup_alter. case_decide; [subst|done]. by rewrite Hk.
Qed.

Lemma missing_row_witness :
  rows (db world_new) !! data_user_id (as_user "u2" theme_dark) = None /\
  exists r, (onRequestPatch (as_user "u2" theme_dark) world_new).1 = Normal r /\
            (status r = 400 \/ status r = 500).
Proof.
  split; [reflexivity|].
  exact (proj1 (proj2 (missing_row (as_user "u2" theme_dark) world_new eq_refl))).
Defined.

(** ** A page size of zero *)

(** Counterexample of C3: a body with [page_size] 0 sends
    [page_size = ?] bound to 0, and the row of the user holds 0 where it
    held 20. *)
Lemma page_size_zero_is_written :
  let res := onRequestPatch (as_user "u1" page_size_zero) world_new in
  stored c_page_size "u1" world_new = Some (SqlNumber 20) /\
  stored c_page_size "u1" res.2 = Some (SqlNumber 0) /\
  trace res.2 =
    [SelectColumnLimit1 c_tag_layout; SelectColumnLimit1 c_sort_by;
     UpdateByUserId ["page_size = ?"; "updated_at = ?"]
       [SqlNumber 0; SqlText "2023-11-14T22:13:20.123Z"; SqlText "u1"];
     SelectByUserId "u1"] /\
  stored c_page_size "u1" res.2 <> stored c_page_size "u1" world_new.
Proof. vm_compute. repeat split. discriminate. Qed.

(** C3, amended.  A [page_size] of 0 is not checked against the range:
    the validation answers as for the body without the field.  The value
    is still present, so [page_size = ?] bound to 0 joins the assignment
    list; when the body passes the validation, the store does not fail
    and the user has a row, the response is a success that shows
    [page_size] 0 and the row holds 0. *)
Theorem page_size_zero_assigned (context : Context) (body : UpdatePreferencesRequest)
    (w : World) :
  request_json context = Normal body ->
  body_page_size body = Some 0 ->
  let res := onRequestPatch context w in
  validate body = validate (without c_page_size body) /\
  (forall tl sb, "page_size = ?" ∈ (build_updates body tl sb).1 /\
                 SqlNumber 0 ∈ (build_updates body tl sb).2) /\
  (forall r, validate body = None -> no_faults (sched w) ->
     rows (db w) !! data_user_id context = Some r ->
     exists p, res.1 = Normal (success p) /\
               out_page_size p = SqlNumber 0 /\
               stored c_page_size (data_user_id context) res.2 =
                 Some (SqlNumber 0)).
Proof.
  intros Hb Hp. simpl.
  assert (body_field c_page_size body = Some (SqlNumber 0)) as Hf
    by (simpl; by rewrite Hp).
  split; [|split].
  - unfold validate. simpl. by rewrite Hp.
  - intros tl sb. by apply (build_updates_mem c_page_size).
  - intros r Hv Hq Hr.
    assert ((build_updates body (has_tag_layout (db w))
               (has_sort_by (db w))).1 <> []) as Hne.
    { intros He.
      pose proof (proj1 (build_updates_mem c_page_size body
        (has_tag_layout (db w)) (has_sort_by (db w)) _ Hf eq_refl)) as Hin.
      rewrite He in Hin. by apply not_elem_of_nil in Hin. }
    destruct (patch_quiet_written context body w r Hb Hv Hq Hr Hne)
      as (H1 & _ & H3 & _).
    eexists. split; [exact H1|]. unfold stored. rewrite H3. simpl.
    by rewrite Hp.
Qed.

Lemma page_size_zero_assigned_witness :
  request_json (as_user "u1" page_size_zero) = Normal page_size_zero /\
  body_page_size page_size_zero = Some 0 /\
  validate page_size_zero = validate (without c_page_size page_size_zero).
Proof.
  split; [reflexivity|]. split; [reflexivity|].
  exact (proj1 (page_size_zero_assigned (as_user "u1" page_size_zero) page_size_zero
                  world_new eq_refl eq_refl)).
Defined.

(** ** The time of the update *)

(** Counterexample of C4: on a table without [tag_layout], a body with
    that field only is answered with success, and [updated_at] is still
    the time of January, not the time of the request. *)
Lemma noop_success_keeps_updated_at :
  let res := onRequestPatch (as_user "u1" tag_layout_masonry) world_old in
  (exists p, res.1 = Normal (success p)) /\
  clock world_old = 1700000000123 /\ clock res.2 = 1700000000123 /\
  Js.toISOString 1700000000123 = "2023-11-14T22:13:20.123Z" /\
  stored c_updated_at "u1" res.2 = Some (SqlText "2024-01-01T00:00:00.000Z") /\
  stored c_updated_at "u1" res.2 <>
    Some (SqlText (Js.toISOString 1700000000123)).
Proof. vm_compute. repeat split; [by eexists|discriminate]. Qed.

(** C4, amended.  A success of UpdatePreferences comes about in one of two
    ways.  Either the assignment list was not empty: then one UPDATE was
    sent and [updated_at] of the row, and of the response, is the ISO-8601
    string of a time read during the request.  Or the list was empty and
    a field was masked by the schema: then no UPDATE was sent, the table
    is as before, and the response shows the [updated_at] the row had. *)
Theorem success_updated_at (context : Context) (w : World) (p : Preferences) :
  (onRequestPatch context w).1 = Normal (success p) ->
  let res := onRequestPatch context w in
  let uid := data_user_id context in
  exists body tl sb,
    request_json context = Normal body /\
    (((build_updates body tl sb).1 <> [] /\
      exists t, clock w <= t <= clock res.2 /\
        trace res.2 =
          trace w ++ [SelectColumnLimit1 c_tag_layout;
                      SelectColumnLimit1 c_sort_by;
                      update_stmt body tl sb (Js.toISOString t) uid;
                      SelectByUserId uid] /\
        stored c_updated_at uid res.2 = Some (SqlText (Js.toISOString t)) /\
        out_updated_at p = SqlText (Js.toISOString t)) \/
     ((build_updates body tl sb).1 = [] /\ masked body tl sb = true /\
      trace res.2 =
        trace w ++ [SelectColumnLimit1 c_tag_layout;
                    SelectColumnLimit1 c_sort_by; SelectByUserId uid] /\
      db res.2 = db w /\
      stored c_updated_at uid w = Some (out_updated_at p))).
Proof.
  simpl. intros Hs.
  destruct (patch_early context w) as
    [(w' & He & _)|(body & tl & sb & Hb & Htl & Hsb)].
  { rewrite He in Hs. discriminate. }
  exists body, tl, sb. split; [done|].
  rewrite (patch_with_answers _ _ _ _ _ Hb Htl Hsb) in *.
  destruct (validate body) as [rej|] eqn:Hv.
  { rewrite (tail_reject _ _ _ _ _ _ Hv) in Hs.
    apply validate_bad in Hv as [m ->]. discriminate. }
  destruct (build_updates body tl sb).1 as [|u us] eqn:Hbu.
  - right. destruct (masked body tl sb) eqn:Hm.
    2:{ rewrite (tail_nothing _ _ _ _ _ Hv Hbu Hm) in Hs. discriminate. }
    destruct (tail_noop (data_user_id context) body tl sb (after_probes w)
                Hv Hbu Hm) as (Hd & Ht & _ & Hre & _).
    split; [done|]. split; [done|].
    split; [rewrite Ht; simpl; by rewrite <- !app_assoc|]. split; [done|].
    rewrite Hs in Hre.
    destruct Hre as [[=]|[[_ [=]]|(r & Hr & [= ->])]].
    simpl in Hr. unfold stored. by rewrite Hr.
  - left. split; [done|].
    assert ((build_updates body tl sb).1 <> []) as Hne by (by rewrite Hbu).
    destruct (tail_update (data_user_id context) body tl sb (after_probes w)
                Hv Hne) as [Hc [(_ & _ & Hi)|(Hd & Ht & Hre)]].
    { rewrite Hs in Hi. discriminate. }
    exists (clock (after_probes w)). split; [simpl in *; lia|].
    split; [rewrite Ht; simpl; by rewrite <- !app_assoc|].
    rewrite Hs in Hre.
    destruct Hre as [[=]|[[_ [=]]|(r & Hr & [= ->])]].
    unfold stored. rewrite Hd, Hr. simpl in Hr.
    rewrite lookup_alter in Hr. case_decide; [|done].
    destruct (rows (db w) !! data_user_id context); [|done].
    by injection Hr as <-.
Qed.

Lemma success_updated_at_witness :
  (onRequestPatch (as_user "u1" theme_dark) world_new).1 =
    Normal (success (mkPreferences
      (SqlText "dark") (SqlNumber 20) (SqlText "list") (SqlText "normal")
      (SqlText "grid") (SqlText "popular")
      (SqlText "2023-11-14T22:13:20.123Z"))) /\
  exists body tl sb,
    request_json (as_user "u1" theme_dark) = Normal body /\
    (((build_updates body tl sb).1 <> [] /\
      exists t, clock world_new <= t <=
                  clock (onRequestPatch (as_user "u1" theme_dark) world_new).2 /\
        trace (onRequestPatch (as_user "u1" theme_dark) world_new).2 =
          trace world_new ++ [SelectColumnLimit1 c_tag_layout;
                      SelectColumnLimit1 c_sort_by;
                      update_stmt body tl sb (Js.toISOString t) "u1";
                      SelectByUserId "u1"] /\
        stored c_updated_at "u1"
          (onRequestPatch (as_user "u1" theme_dark) world_new).2 =
          Some (SqlText (Js.toISOString t)) /\
        SqlText "2023-11-14T22:13:20.123Z" = SqlText (Js.toISOString t)) \/
     ((build_updates body tl sb).1 = [] /\ masked body tl sb = true /\
      trace (onRequestPatch (as_user "u1" theme_dark) world_new).2 =
        trace world_new ++ [SelectColumnLimit1 c_tag_layout;
                    SelectColumnLimit1 c_sort_by; SelectByUserId "u1"] /\
      db (onRequestPatch (as_user "u1" theme_dark) world_new).2 = db world_new /\
      stored c_updated_at "u1" world_new =
        Some (SqlText "2023-11-14T22:13:20.123Z"))).
Proof.
  split; [vm_compute; reflexivity|].
  exact (success_updated_at (as_user "u1" theme_dark) world_new _
           (eq_refl : (onRequestPatch (as_user "u1" theme_dark) world_new).1 =
              Normal (success (mkPreferences
                (SqlText "dark") (SqlNumber 20) (SqlText "list")
                (SqlText "normal") (SqlText "grid") (SqlText "popular")
                (SqlText "2023-11-14T22:13:20.123Z"))))).
Defined.

(** ** An empty assignment list *)

(** Counterexample of C7: on a table without [tag_layout], a body with
    that field only, sent by a user without a row, ends with an empty
    assignment list and a masked field, and is answered with Internal. *)
Lemma masked_field_without_row :
  let res := onRequestPatch (as_user "u2" tag_layout_masonry) world_old in
  (hasTagLayoutColumn world_old).1 = Normal false /\
  validate tag_layout_masonry = None /\
  (build_updates tag_layout_masonry false false).1 = [] /\
  masked tag_layout_masonry false false = true /\
  res.1 = Normal (internalError "Failed to load preferences") /\
  ~ (exists p, res.1 = Normal (success p)).
Proof. vm_compute. repeat split. by intros (p & [=]). Qed.

(** C7, amended.  When the probes have answered, the body has passed the
    validation and the assignment list is empty: if a field of the body
    goes to an optional column the probe reported missing, the handler
    sends no UPDATE, reads the row and leaves the table as it was; when
    that read does not fail, a user with a row gets a success that shows
    the row with the defaults, and a user without a row gets Internal.
    Otherwise the response is BadInput, "No valid fields to update", and
    nothing is sent after the probes. *)
Theorem empty_assignment_list (context : Context)
    (body : UpdatePreferencesRequest) (w : World) (tl sb : bool) :
  request_json context = Normal body ->
  (hasTagLayoutColumn w).1 = Normal tl ->
  (hasSortByColumn (hasTagLayoutColumn w).2).1 = Normal sb ->
  validate body = None ->
  (build_updates body tl sb).1 = [] ->
  let res := onRequestPatch context w in
  let uid := data_user_id context in
  if masked body tl sb then
    db res.2 = db w /\
    trace res.2 =
      trace w ++ [SelectColumnLimit1 c_tag_layout;
                  SelectColumnLimit1 c_sort_by; SelectByUserId uid] /\
    (fault (default quiet (head (sched (after_probes w)))) = None ->
     res.1 = Normal match rows (db w) !! uid with
                    | Some r => success (shown (db w) r)
                    | None => internalError "Failed to load preferences"
                    end)
  else
    res = (Normal (badRequest "No valid fields to update"), after_probes w).
Proof.
  intros Hb Htl Hsb Hv Hbu. simpl.
  rewrite (patch_with_answers _ _ _ _ _ Hb Htl Hsb).
  destruct (masked body tl sb) eqn:Hm.
  - destruct (tail_noop (data_user_id context) body tl sb (after_probes w)
                Hv Hbu Hm) as (Hd & Ht & _ & _ & Hq).
    split; [done|]. split; [rewrite Ht; simpl; by rewrite <- !app_assoc|].
    intros Hf. rewrite (Hq Hf). simpl.
    destruct (rows (db w) !! data_user_id context); [|done].
    by rewrite project_fetch.
  - by apply tail_nothing.
Qed.

Lemma empty_assignment_list_witness :
  request_json (as_user "u1" tag_layout_masonry) = Normal tag_layout_masonry /\
  (hasTagLayoutColumn world_old).1 = Normal false /\
  (hasSortByColumn (hasTagLayoutColumn world_old).2).1 = Normal false /\
  validate tag_layout_masonry = None /\
  (build_updates tag_layout_masonry false false).1 = [] /\
  db (onRequestPatch (as_user "u1" tag_layout_masonry) world_old).2 =
    db world_old.
Proof.
  do 5 (split; [reflexivity|]).
  exact (proj1 (empty_assignment_list (as_user "u1" tag_layout_masonry)
                  tag_layout_masonry world_old false false
                  eq_refl eq_refl eq_refl eq_refl eq_refl)).
Defined.

(** The request of the specification's section 8: on a table without
    [tag_layout], a body with [tag_layout] "masonry" only is answered
    with success, shows "grid", and no UPDATE is sent. *)
Example masked_tag_layout_reports_grid :
  let res := onRequestPatch (as_user "u1" tag_layout_masonry) world_old in
  res.1 = Normal (success (mkPreferences
      (SqlText "light") (SqlNumber 20) (SqlText "list") (SqlText "normal")
      (SqlText "grid") (SqlText "popular")
      (SqlText "2024-01-01T00:00:00.000Z"))) /\
  trace res.2 = [SelectColumnLimit1 c_tag_layout; SelectColumnLimit1 c_sort_by;
                 SelectByUserId "u1"].
Proof. vm_compute. done. Qed.

(** ** The fields a body does not name *)

(** C8.  For a body that passes the validation, a column other than
    [updated_at] whose field the body does not hold has, in the row of
    every user, the value it had before the request, whatever the store
    does. *)
Theorem untouched_fields (context : Context) (body : UpdatePreferencesRequest)
    (w : World) (c : Column) (k : string) :
  request_json context = Normal body ->
  validate body = None ->
  c <> c_updated_at ->
  body_field c body = None ->
  stored c k (onRequestPatch context w).2 = stored c k w.
Proof.
  intros Hb Hv Hc Hf. unfold stored.
  destruct (patch_db context w) as
    [->|(body' & tl & sb & t & Hb' & _ & _ & ->)]; [done|].
  rewrite Hb in Hb'. injection Hb' as <-.
  rewrite stored_patched. case_decide; [|done].
  destruct (rows (db w) !! k) as [r|]; [|done]. simpl.
  by rewrite patched_frame.
Qed.

Lemma untouched_fields_witness :
  request_json (as_user "u1" theme_dark) = Normal theme_dark /\
  validate theme_dark = None /\
  c_page_size <> c_updated_at /\
  body_field c_page_size theme_dark = None /\
  stored c_page_size "u1" (onRequestPatch (as_user "u1" theme_dark) world_new).2 =
  stored c_page_size "u1" world_new.
Proof.
  do 2 (split; [reflexivity|]). split; [discriminate|]. split; [reflexivity|].
  apply (untouched_fields (as_user "u1" theme_dark) theme_dark world_new
           c_page_size "u1"); [reflexivity|reflexivity|discriminate|reflexivity].
Defined.

(** ** The same body twice *)

(** Counterexample of C9: the same body sent twice within one
    millisecond leaves the same [updated_at] both times. *)
Lemma same_millisecond_same_timestamp :
  let res1 := onRequestPatch (as_user "u1" theme_dark) world_new in
  let res2 := onRequestPatch (as_user "u1" theme_dark) (later res1.2 0 []) in
  (exists p, res1.1 = Normal (success p)) /\
  (exists p, res2.1 = Normal (success p)) /\
  stored c_updated_at "u1" res1.2 = Some (SqlText "2023-11-14T22:13:20.123Z") /\
  stored c_updated_at "u1" res2.2 = Some (SqlText "2023-11-14T22:13:20.123Z") /\
  ~ (stored c_updated_at "u1" res1.2 <> stored c_updated_at "u1" res2.2).
Proof.
  vm_compute. repeat split; try by eexists. intros H. by apply H.
Qed.

(** C9, amended.  With a store that does not fail, the same accepted
    body sent twice in sequence leaves every column but [updated_at] of
    every row as the first request left it, and a second success shows
    the six fields the first showed.  When the body has something to
    write and the user has a row, [updated_at] is after each request the
    ISO-8601 string of a time not before that request's start, the second
    time not before the first; the two need not differ. *)
Theorem update_twice (context : Context) (body : UpdatePreferencesRequest)
    (w : World) (dt : nat) (sch2 : list Step) :
  request_json context = Normal body ->
  validate body = None ->
  no_faults (sched w) ->
  no_faults sch2 ->
  let uid := data_user_id context in
  let res1 := onRequestPatch context w in
  let w1 := later res1.2 dt sch2 in
  let res2 := onRequestPatch context w1 in
  (forall c k, c <> c_updated_at -> stored c k res2.2 = stored c k res1.2) /\
  (forall p1, res1.1 = Normal (success p1) ->
     exists p2, res2.1 = Normal (success p2) /\
       forall c, c <> c_updated_at -> out_get c p2 = out_get c p1) /\
  (forall r, rows (db w) !! uid = Some r ->
     (build_updates body (has_tag_layout (db w)) (has_sort_by (db w))).1 <> [] ->
     exists t1 t2,
       clock w <= t1 /\ t1 <= t2 /\ clock w1 <= t2 /\
       stored c_updated_at uid res1.2 = Some (SqlText (Js.toISOString t1)) /\
       stored c_updated_at uid res2.2 = Some (SqlText (Js.toISOString t2))).
Proof.
  intros Hb Hv Hq Hq2. simpl.
  set (tl := has_tag_layout (db w)). set (sb := has_sort_by (db w)).
  set (uid := data_user_id context).
  set (w1 := later (onRequestPatch context w).2 dt sch2).
  assert (no_faults (sched w1)) as Hq1 by done.
  destruct (build_updates body tl sb).1 as [|u us] eqn:Hbu.
  - (* nothing to write: the table is never touched *)
    assert (forall w0, no_faults (sched w0) -> db w0 = db w ->
              db (onRequestPatch context w0).2 = db w /\
              (onRequestPatch context w0).1 =
                if masked body tl sb
                then Normal match rows (db w) !! uid with
                            | None => internalError "Failed to load preferences"
                            | Some r => success (project (fetch (db w) uid r))
                            end
                else Normal (badRequest "No valid fields to update")) as Hrun.
    { intros w0 Hq0 Hd0. rewrite (patch_quiet _ _ _ Hb Hq0), Hd0.
      fold tl sb uid. destruct (masked body tl sb) eqn:Hm.
      - destruct (tail_noop uid body tl sb (after_probes w0) Hv Hbu Hm)
          as (Hd & _ & _ & _ & Hres).
        rewrite Hres by (simpl; by apply no_faults_head, no_faults_tail,
                                        no_faults_tail).
        simpl. by rewrite Hd0.
      - rewrite (tail_nothing _ _ _ _ _ Hv Hbu Hm). simpl. by rewrite Hd0. }
    destruct (Hrun w Hq eq_refl) as [Hd1 Hr1].
    destruct (Hrun w1 Hq1 Hd1) as [Hd2 Hr2].
    split; [|split].
    + intros c k _. unfold stored. by rewrite Hd2, Hd1.
    + intros p1 Hp1. exists p1. by rewrite Hr2, <- Hr1.
    + intros r _ Hne. done.
  - assert ((build_updates body tl sb).1 <> []) as Hne by (by rewrite Hbu).
    clear Hbu.
    assert (forall w0, no_faults (sched w0) ->
              has_tag_layout (db w0) = tl -> has_sort_by (db w0) = sb ->
              let now := Js.toISOString (clock (after_probes w0)) in
              let d' := patched_db body tl sb now uid (db w0) in
              db (onRequestPatch context w0).2 = d' /\
              clock (after_probes w0) <= clock (onRequestPatch context w0).2 /\
              (onRequestPatch context w0).1 =
                Normal match rows d' !! uid with
                       | None => internalError
                                   "Failed to load preferences after update"
                       | Some r => success (project (fetch d' uid r))
                       end) as Hrun.
    { intros w0 Hq0 Htl0 Hsb0. simpl.
      rewrite (patch_quiet _ _ _ Hb Hq0), Htl0, Hsb0. fold uid.
      rewrite tail_update_quiet; try done.
      - simpl. repeat split. lia.
      - simpl. congruence.
      - simpl. congruence.
      - simpl. by apply no_faults_tail, no_faults_tail. }
    destruct (Hrun w Hq eq_refl eq_refl) as (Hd1 & Hc1 & Hr1).
    assert (has_tag_layout (db w1) = tl /\ has_sort_by (db w1) = sb)
      as [Htl1 Hsb1] by (unfold w1; simpl; by rewrite Hd1).
    destruct (Hrun w1 Hq1 Htl1 Hsb1) as (Hd2 & Hc2 & Hr2).
    assert (db w1 = db (onRequestPatch context w).2) as Hdw1 by done.
    assert (forall c k, c <> c_updated_at ->
              row_get c <$> rows (db (onRequestPatch context w1).2) !! k =
              row_get c <$> rows (db (onRequestPatch context w).2) !! k)
      as Hsame.
    { intros c k Hc. rewrite Hd2, stored_patched, Hdw1.
      case_decide; [|done]. rewrite Hd1. simpl. rewrite lookup_alter.
      case_decide; [|done].
      destruct (rows (db w) !! uid) as [r|]; [|done]. simpl.
      by rewrite patched_twice. }
    split; [exact Hsame|]. split.
    + intros p1 Hp1. rewrite Hr1 in Hp1. rewrite Hr2.
      pose proof (fun c Hc => Hsame c uid Hc) as Hu.
      rewrite Hd2, Hd1 in Hu.
      destruct (rows (patched_db body tl sb _ uid (db w)) !! uid)
        as [r1|] eqn:E1; [|discriminate].
      injection Hp1 as <-.
      rewrite Hdw1, Hd1, !project_fetch in *.
      destruct (rows (patched_db body tl sb _ uid
                        (patched_db body tl sb _ uid (db w))) !! uid)
        as [r2|] eqn:E2.
      2:{ specialize (Hu c_theme ltac:(done)). discriminate. }
      eexists. split; [done|]. intros c Hc.
      rewrite project_fetch. apply shown_ext; [done|done|].
      specialize (Hu c Hc). by injection Hu.
    + intros r Hr _.
      exists (clock (after_probes w)), (clock (after_probes w1)).
      split; [simpl; lia|]. split; [unfold w1 at 1; simpl in *; lia|].
      split; [simpl; lia|].
      unfold stored. rewrite Hd2, Hdw1, Hd1. simpl.
      rewrite !lookup_alter. case_decide; [|done]. by rewrite Hr.
Qed.

Lemma update_twice_witness :
  request_json (as_user "u1" theme_dark) = Normal theme_dark /\
  validate theme_dark = None /\
  no_faults (sched world_new) /\
  no_faults [mkStep 2 None] /\
  forall c k, c <> c_updated_at ->
    stored c k
      (onRequestPatch (as_user "u1" theme_dark)
         (later (onRequestPatch (as_user "u1" theme_dark) world_new).2 7
                [mkStep 2 None])).2 =
    stored c k (onRequestPatch (as_user "u1" theme_dark) world_new).2.
Proof.
  do 2 (split; [reflexivity|]). split; [constructor|].
  split; [by repeat constructor|].
  refine (proj1 (update_twice (as_user "u1" theme_dark) theme_dark world_new 7
                   [mkStep 2 None] eq_refl eq_refl _ _));
    by repeat constructor.
Defined.

(** ** An empty string *)

Lemma supported_exists (c : Column) (d : Db) :
  supported c (has_tag_layout d) (has_sort_by d) = column_exists d c.
Proof. by destruct c. Qed.

(** The request of the claim: the empty theme is written and shown. *)
Example empty_theme_is_written :
  let res := onRequestPatch (as_user "u1" theme_empty) world_new in
  res.1 = Normal (success (mkPreferences
      (SqlText "") (SqlNumber 20) (SqlText "list") (SqlText "normal")
      (SqlText "grid") (SqlText "popular")
      (SqlText "2023-11-14T22:13:20.123Z"))) /\
  stored c_theme "u1" res.2 = Some (SqlText "").
Proof. vm_compute. done. Qed.

(** Counterexample of C10: on a table without [tag_layout], the empty
    string for [tag_layout] passes the validation but does not join the
    assignment list; nothing is written. *)
Lemma empty_tag_layout_not_assigned :
  let res := onRequestPatch (as_user "u1" tag_layout_empty) world_old in
  body_field c_tag_layout tag_layout_empty = Some (SqlText "") /\
  validate tag_layout_empty = None /\
  (hasTagLayoutColumn world_old).1 = Normal false /\
  build_updates tag_layout_empty false false = ([], []) /\
  ~ In "tag_layout = ?" (build_updates tag_layout_empty false false).1 /\
  trace res.2 = [SelectColumnLimit1 c_tag_layout; SelectColumnLimit1 c_sort_by;
                 SelectByUserId "u1"] /\
  stored c_tag_layout "u1" res.2 = Some (SqlText "grid").
Proof. vm_compute. repeat split. tauto. Qed.

(** C10, amended.  For each of the five text fields, an empty string in
    the body is not checked against the allowed values: the validation
    answers as for the body without the field.  Its assignment joins the
    list exactly when the column is one of theme, view_mode and density,
    or an optional column the probe reported present.  When the body
    passes the validation, the store does not fail, the table has the
    column and the user has a row, the response is a success that shows
    the empty string and the row holds it. *)
Theorem empty_string_assigned (c : Column) (context : Context)
    (body : UpdatePreferencesRequest) (w : World) :
  c ∈ text_columns ->
  request_json context = Normal body ->
  body_field c body = Some (SqlText "") ->
  let res := onRequestPatch context w in
  validate body = validate (without c body) /\
  (forall tl sb,
     (column_name c +:+ " = ?") ∈ (build_updates body tl sb).1 <->
     supported c tl sb = true) /\
  (forall r, validate body = None -> no_faults (sched w) ->
     column_exists (db w) c = true ->
     rows (db w) !! data_user_id context = Some r ->
     exists p, res.1 = Normal (success p) /\
               out_get c p = SqlText "" /\
               stored c (data_user_id context) res.2 = Some (SqlText "")).
Proof.
  intros Hc Hb Hf. simpl.
  assert (c <> c_updated_at) as Hcu by (intros ->; discriminate).
  split; [|split].
  - clear Hb. unfold text_columns in Hc.
    repeat (apply elem_of_cons in Hc as [->|Hc]);
      [..|by apply not_elem_of_nil in Hc];
      split_body body; simpl in Hf; try discriminate;
      injection Hf as ->; reflexivity.
  - intros tl sb. split.
    + intros Hin. destruct (supported c tl sb) eqn:Hs; [done|].
      by apply build_updates_masked in Hin.
    + intros Hs. by apply (build_updates_mem c body tl sb _ Hf Hs).
  - intros r Hv Hq He Hr.
    rewrite <- supported_exists in He.
    assert ((build_updates body (has_tag_layout (db w))
               (has_sort_by (db w))).1 <> []) as Hne.
    { intros Hnil.
      pose proof (proj1 (build_updates_mem c body _ _ _ Hf He)) as Hin.
      rewrite Hnil in Hin. by apply not_elem_of_nil in Hin. }
    destruct (patch_quiet_written context body w r Hb Hv Hq Hr Hne)
      as (H1 & _ & H3 & _).
    assert (row_get c (patched body (has_tag_layout (db w))
                         (has_sort_by (db w))
                         (Js.toISOString (clock (after_probes w))) r)
            = SqlText "") as Hg.
    { rewrite patched_get, He, Hf. by case_decide. }
    eexists. split; [exact H1|]. split.
    + rewrite shown_get; [exact Hg|by rewrite <- supported_exists|congruence].
    + unfold stored. rewrite H3. simpl. f_equal. exact Hg.
Qed.

Lemma empty_string_assigned_witness :
  c_theme ∈ text_columns /\
  request_json (as_user "u1" theme_empty) = Normal theme_empty /\
  body_field c_theme theme_empty = Some (SqlText "") /\
  validate theme_empty = validate (without c_theme theme_empty).
Proof.
  split; [by repeat constructor|]. do 2 (split; [reflexivity|]).
  refine (proj1 (empty_string_assigned c_theme (as_user "u1" theme_empty)
                   theme_empty world_new _ eq_refl eq_refl)).
  by repeat constructor.
Defined.

(* ================================================================== *)
(** * Further properties of the handlers                              *)
(* ================================================================== *)

(** ** The validation *)

(** X1.  For a body of the base types of the interface (text fields that
    hold strings, a page size that holds an integer), the validation lets
    the body through exactly when every field it holds is in the domain
    of its column (an allowed string, a page size from 10 to 100) or is
    falsy (the empty string, zero). *)
Theorem validate_accepts (body : UpdatePreferencesRequest) :
  validate body = None <-> forall c, field_accepted c body.
Proof. apply validate_none_iff. Qed.

(** X2.  The validation answers with the message of the first column, in
    the order theme, page_size, view_mode, density, tag_layout, sort_by,
    whose field fails its check: the fields before it pass, whatever the
    fields after it hold. *)
Theorem validate_first_failure (body : UpdatePreferencesRequest) (r : Response) :
  validate body = Some r <->
  exists before c after,
    mutable_columns = before ++ c :: after /\
    (forall c', In c' before -> field_accepted c' body) /\
    ~ field_accepted c body /\
    r = badRequest (rejection c).
Proof.
  checks body. unfold validate. split.
  - destruct (not_among _ (body_theme body)).
    { intros [= <-]. exists [], c_theme, (tail mutable_columns).
      repeat split; [done|]. intros H. by apply Ht in H. }
    destruct (out_of_range _).
    { intros [= <-]. exists [c_theme], c_page_size, (drop 2 mutable_columns).
      repeat split; [by intros c' [<-|[]]; tauto|]. intros H. by apply Hp in H. }
    destruct (not_among _ (body_view_mode body)).
    { intros [= <-].
      exists [c_theme; c_page_size], c_view_mode, (drop 3 mutable_columns).
      repeat split; [by intros c' [<-|[<-|[]]]; tauto|].
      intros H. by apply Hm in H. }
    destruct (not_among _ (body_density body)).
    { intros [= <-].
      exists [c_theme; c_page_size; c_view_mode], c_density,
             (drop 4 mutable_columns).
      repeat split; [by intros c' [<-|[<-|[<-|[]]]]; tauto|].
      intros H. by apply Hd in H. }
    destruct (not_among _ (body_tag_layout body)).
    { intros [= <-].
      exists [c_theme; c_page_size; c_view_mode; c_density], c_tag_layout,
             (drop 5 mutable_columns).
      repeat split; [by intros c' [<-|[<-|[<-|[<-|[]]]]]; tauto|].
      intros H. by apply Hl in H. }
    destruct (not_among _ (body_sort_by body)); [|done].
    intros [= <-].
    exists [c_theme; c_page_size; c_view_mode; c_density; c_tag_layout],
           c_sort_by, [].
    repeat split; [by intros c' [<-|[<-|[<-|[<-|[<-|[]]]]]]; tauto|].
    intros H. by apply Hs in H.
  - intros (before & c & after & Hsplit & Hpre & Hno & ->).
    assert (forall b, (b = false <-> field_accepted c body) -> b = true)
      as Hfail.
    { intros [] Hb; [done|]. exfalso. apply Hno. by apply Hb. }
    unfold mutable_columns in Hsplit.
    repeat (destruct before as [|? before];
            [injection Hsplit as <- <-|
             injection Hsplit as <- Hsplit;
             try (destruct before; discriminate)]);
      repeat match goal with
             | |- context [not_among ?l (body_theme body)] =>
                 first [rewrite (Hfail _ Ht)
                       |rewrite (proj2 Ht (Hpre c_theme ltac:(simpl; tauto)))]
             | |- context [out_of_range (body_page_size body)] =>
                 first [rewrite (Hfail _ Hp)
                       |rewrite (proj2 Hp (Hpre c_page_size ltac:(simpl; tauto)))]
             | |- context [not_among ?l (body_view_mode body)] =>
                 first [rewrite (Hfail _ Hm)
                       |rewrite (proj2 Hm (Hpre c_view_mode ltac:(simpl; tauto)))]
             | |- context [not_among ?l (body_density body)] =>
                 first [rewrite (Hfail _ Hd)
                       |rewrite (proj2 Hd (Hpre c_density ltac:(simpl; tauto)))]
             | |- context [not_among ?l (body_tag_layout body)] =>
                 first [rewrite (Hfail _ Hl)
                       |rewrite (proj2 Hl (Hpre c_tag_layout ltac:(simpl; tauto)))]
             | |- context [not_among ?l (body_sort_by body)] =>
                 first [rewrite (Hfail _ Hs)
                       |rewrite (proj2 Hs (Hpre c_sort_by ltac:(simpl; tauto)))]
             end; done.
Qed.

(** ** Every way a request can go *)

(** The stages before the validation: the body cannot be read, a probe
    throws, or both probes answer. *)
Lemma patch_stages (context : Context) (w : World) :
  let res := onRequestPatch context w in
  let failed := Normal (internalError "Failed to update preferences") in
  (exists e, request_json context = Abrupt e /\
     res = (failed,
            mkWorld (db w) (sched w) (clock w) (trace w)
                    (console w ++ [("Update preferences error:", e)]))) \/
  (exists e, (hasTagLayoutColumn w).1 = Abrupt e /\
     res.1 = failed /\ db res.2 = db w /\
     trace res.2 = trace w ++ [probe_tag_layout]) \/
  (exists e, (hasSortByColumn (hasTagLayoutColumn w).2).1 = Abrupt e /\
     res.1 = failed /\ db res.2 = db w /\
     trace res.2 = trace w ++ [probe_tag_layout; probe_sort_by]) \/
  (exists body tl sb,
     request_json context = Normal body /\
     (hasTagLayoutColumn w).1 = Normal tl /\
     (hasSortByColumn (hasTagLayoutColumn w).2).1 = Normal sb /\
     res = try_catch (patch_tail (data_user_id context) body tl sb)
                     patch_catch (after_probes w)).
Proof.
  simpl. destruct (request_json context) as [body|e] eqn:Hb.
  2:{ left. exists e. split; [done|]. rewrite onRequestPatch_tail.
      unfold try_catch, mbind, M_bind, json. by rewrite Hb. }
  right. destruct (hasTagLayoutColumn w).1 as [tl|e1] eqn:H1.
  2:{ left. exists e1. split; [done|].
      assert (onRequestPatch context w =
              patch_catch e1 (tick probe_tag_layout (db w) w)) as ->; [|done].
      rewrite onRequestPatch_tail.
      unfold try_catch, mbind, M_bind, json. rewrite Hb.
      rewrite hasTagLayoutColumn_run in *. simpl in *. by rewrite H1. }
  right. destruct (hasSortByColumn (hasTagLayoutColumn w).2).1 as [sb|e2] eqn:H2.
  2:{ left. exists e2. split; [done|].
      assert (onRequestPatch context w =
              patch_catch e2 (after_probes w)) as ->.
      { rewrite onRequestPatch_tail.
        unfold try_catch, mbind, M_bind, json. rewrite Hb.
        rewrite hasTagLayoutColumn_run in *. simpl in *. rewrite H1.
        rewrite hasSortByColumn_run in *. simpl in *. by rewrite H2. }
      simpl. by rewrite <- app_assoc. }
  right. exists body, tl, sb. repeat split; try done.
  by apply patch_with_answers.
Qed.

(** What follows the probes, whatever the store does: the response, the
    table and the statements sent. *)
Lemma tail_paths (uid : string) (body : UpdatePreferencesRequest)
    (tl sb : bool) (w : World) :
  let res := try_catch (patch_tail uid body tl sb) patch_catch w in
  let now := Js.toISOString (clock w) in
  let d' := patched_db body tl sb now uid (db w) in
  (exists m, res.1 = Normal (badRequest m) /\ res.2 = w) \/
  (db res.2 = db w /\ trace res.2 = trace w ++ [SelectByUserId uid] /\
   reread (db w) uid "Failed to load preferences" res.1) \/
  (db res.2 = db w /\
   trace res.2 = trace w ++ [update_stmt body tl sb now uid] /\
   res.1 = Normal (internalError "Failed to update preferences")) \/
  (db res.2 = d' /\
   trace res.2 = trace w ++ [update_stmt body tl sb now uid; SelectByUserId uid] /\
   reread d' uid "Failed to load preferences after update" res.1).
Proof.
  simpl. destruct (validate body) as [r|] eqn:Hv.
  { left. rewrite (tail_reject _ _ _ _ _ _ Hv).
    apply validate_bad in Hv as [m ->]. by exists m. }
  destruct (build_updates body tl sb).1 as [|u us] eqn:Hb.
  - destruct (masked body tl sb) eqn:Hm.
    + right; left.
      by destruct (tail_noop uid body tl sb w Hv Hb Hm) as (? & ? & _ & ? & _).
    + left. rewrite (tail_nothing _ _ _ _ _ Hv Hb Hm). by eexists.
  - assert ((build_updates body tl sb).1 <> []) as Hne by (by rewrite Hb).
    destruct (tail_update uid body tl sb w Hv Hne) as [_ [?|?]].
    + right; right; by left.
    + right; right; by right.
Qed.

Lemma reread_cases (d : Db) (uid miss : string) (out : Completion Response) :
  reread d uid miss out ->
  (exists m, out = Normal (internalError m)) \/
  (exists r, rows d !! uid = Some r /\ out = Normal (success (shown d r))).
Proof.
  intros [->|[[_ ->]|(r & Hr & ->)]]; [left; by eexists..|].
  right. exists r. by rewrite project_fetch.
Qed.

(** A success shows the row the request left. *)
Lemma patch_success_row (context : Context) (w : World) (p : Preferences) :
  (onRequestPatch context w).1 = Normal (success p) ->
  exists r, rows (db (onRequestPatch context w).2) !! data_user_id context
              = Some r /\
            p = shown (db (onRequestPatch context w).2) r.
Proof.
  intros Hs.
  destruct (patch_stages context w) as
    [(e & _ & He)|[(e & _ & He & _)|[(e & _ & He & _)
      |(body & tl & sb & _ & _ & _ & He)]]];
    try (rewrite He in Hs; discriminate).
  rewrite He in *. clear He.
  destruct (tail_paths (data_user_id context) body tl sb (after_probes w))
    as [(m & Hm & _)|[(Hd & _ & Hre)|[(_ & _ & Hi)|(Hd & _ & Hre)]]].
  - rewrite Hs in Hm. discriminate.
  - rewrite Hd. apply reread_cases in Hre as [[m Hm]|(r & Hr & Hp)].
    + rewrite Hs in Hm. discriminate.
    + rewrite Hs in Hp. injection Hp as ->. by exists r.
  - rewrite Hs in Hi. discriminate.
  - rewrite Hd. apply reread_cases in Hre as [[m Hm]|(r & Hr & Hp)].
    + rewrite Hs in Hm. discriminate.
    + rewrite Hs in Hp. injection Hp as ->. by exists r.
Qed.

Lemma get_run (context : Context) (w : World) :
  let uid := data_user_id context in
  onRequestGet context w =
  match fault (default quiet (head (sched w))) with
  | Some e =>
      (Normal (internalError "Failed to get preferences"),
       mkWorld (db w) (tail (sched w))
               (clock w + Z.of_nat (latency (default quiet (head (sched w)))))
               (trace w ++ [SelectByUserId uid])
               (console w ++ [("Get preferences error:", e)]))
  | None =>
      (Normal match rows (db w) !! uid with
              | None => notFound "Preferences not found"
              | Some r => success (shown (db w) r)
              end,
       tick (SelectByUserId uid) (db w) w)
  end.
Proof.
  simpl. destruct (fault _) as [e|] eqn:Hf.
  - unfold onRequestGet, try_catch, mbind, M_bind, first_by_user.
    by rewrite (statement_fault _ _ _ _ Hf).
  - rewrite (onRequestGet_quiet _ _ Hf).
    destruct (rows (db w) !! data_user_id context); [|done].
    by rewrite project_fetch.
Qed.

(** X3.  GetPreferences, whatever the store does, sends the one read of
    the row and leaves the table as it was.  A read that fails is
    answered with Internal, "Failed to get preferences", and the error
    goes to the console; a read that completes is answered with the row
    shown with the defaults, or with NotFound, and nothing is logged. *)
Theorem get_any_world (context : Context) (w : World) :
  let res := onRequestGet context w in
  let uid := data_user_id context in
  db res.2 = db w /\
  trace res.2 = trace w ++ [SelectByUserId uid] /\
  match fault (default quiet (head (sched w))) with
  | Some e =>
      res.1 = Normal (internalError "Failed to get preferences") /\
      console res.2 = console w ++ [("Get preferences error:", e)]
  | None =>
      res.1 = Normal match rows (db w) !! uid with
                     | None => notFound "Preferences not found"
                     | Some r => success (shown (db w) r)
                     end /\
      console res.2 = console w
  end.
Proof. simpl. rewrite get_run. by destruct (fault _). Qed.

(** X4.  When [request.json()] throws, UpdatePreferences answers Internal,
    "Failed to update preferences": nothing is sent to the store, and the
    only trace of the request is the error on the console. *)
Theorem unreadable_body (context : Context) (w : World) (e : Thrown) :
  request_json context = Abrupt e ->
  onRequestPatch context w =
  (Normal (internalError "Failed to update preferences"),
   mkWorld (db w) (sched w) (clock w) (trace w)
           (console w ++ [("Update preferences error:", e)])).
Proof.
  intros Hb. rewrite onRequestPatch_tail.
  unfold try_catch, mbind, M_bind, json. by rewrite Hb.
Qed.

Lemma unreadable_body_witness :
  request_json (mkContext "u1" (Abrupt (JsError "Unexpected end of JSON input")))
    = Abrupt (JsError "Unexpected end of JSON input") /\
  onRequestPatch (mkContext "u1" (Abrupt (JsError "Unexpected end of JSON input")))
                 world_new =
  (Normal (internalError "Failed to update preferences"),
   mkWorld (db world_new) (sched world_new) (clock world_new) (trace world_new)
           (console world_new ++
            [("Update preferences error:",
              JsError "Unexpected end of JSON input")])).
Proof.
  split; [reflexivity|].
  exact (unreadable_body
           (mkContext "u1" (Abrupt (JsError "Unexpected end of JSON input")))
           world_new (JsError "Unexpected end of JSON input") eq_refl).
Defined.

(** X5.  UpdatePreferences always answers, whatever the store and the
    body do: nothing it calls throws past its [catch].  The response is a
    success (200), a BadInput (400) or an Internal (500); it is never a
    NotFound. *)
Theorem patch_always_answers (context : Context) (w : World) :
  exists r, (onRequestPatch context w).1 = Normal r /\
            (status r = 200 \/ status r = 400 \/ status r = 500) /\
            forall m, r <> notFound m.
Proof.
  assert (forall out,
    ((exists p, out = Normal (success p)) \/
     (exists m, out = Normal (badRequest m)) \/
     (exists m, out = Normal (internalError m))) ->
    exists r, out = Normal r /\
              (status r = 200 \/ status r = 400 \/ status r = 500) /\
              forall m, r <> notFound m) as Hfin.
  { intros out [[p ->]|[[m ->]|[m ->]]]; eexists; (split; [done|]);
      simpl; split; try done; tauto. }
  apply Hfin.
  destruct (patch_stages context w) as
    [(e & _ & ->)|[(e & _ & -> & _)|[(e & _ & -> & _)
      |(body & tl & sb & _ & _ & _ & ->)]]];
    try (right; right; by eexists).
  destruct (tail_paths (data_user_id context) body tl sb (after_probes w))
    as [(m & -> & _)|[(_ & _ & Hre)|[(_ & _ & ->)|(_ & _ & Hre)]]].
  - right; left; by eexists.
  - apply reread_cases in Hre as [[m ->]|(r & _ & ->)];
      [right; right|left]; by eexists.
  - right; right; by eexists.
  - apply reread_cases in Hre as [[m ->]|(r & _ & ->)];
      [right; right|left]; by eexists.
Qed.

(** X6.  UpdatePreferences sends at most four statements and never more
    than one UPDATE: the two probes, in this order, then at most the
    UPDATE and one read of the row.  Nothing is sent twice. *)
Theorem patch_statements (context : Context) (w : World) :
  let res := onRequestPatch context w in
  let sel := SelectByUserId (data_user_id context) in
  exists sent,
    trace res.2 = trace w ++ sent /\
    (sent = [] \/ sent = [probe_tag_layout] \/
     sent = [probe_tag_layout; probe_sort_by] \/
     sent = [probe_tag_layout; probe_sort_by; sel] \/
     exists us vs,
       sent = [probe_tag_layout; probe_sort_by; UpdateByUserId us vs] \/
       sent = [probe_tag_layout; probe_sort_by; UpdateByUserId us vs; sel]).
Proof.
  simpl.
  destruct (patch_stages context w) as
    [(e & _ & ->)|[(e & _ & _ & _ & Ht)|[(e & _ & _ & _ & Ht)
      |(body & tl & sb & _ & _ & _ & ->)]]].
  - exists []. split; [by rewrite app_nil_r|by left].
  - eexists. split; [exact Ht|]. right; by left.
  - eexists. split; [exact Ht|]. right; right; by left.
  - destruct (tail_paths (data_user_id context) body tl sb (after_probes w))
      as [(m & _ & ->)|[(_ & Ht & _)|[(_ & Ht & _)|(_ & Ht & _)]]].
    + eexists. split; [simpl; by rewrite <- app_assoc|].
      right; right; by left.
    + eexists. split; [rewrite Ht; simpl; by rewrite <- !app_assoc|].
      right; right; right; by left.
    + eexists. split; [rewrite Ht; simpl; by rewrite <- !app_assoc|].
      do 4 right. do 2 eexists. left. reflexivity.
    + eexists. split; [rewrite Ht; simpl; by rewrite <- !app_assoc|].
      do 4 right. do 2 eexists. right. reflexivity.
Qed.

(** ** Reading back what was written *)

(** X7.  A success of UpdatePreferences shows what a GetPreferences that
    follows it shows, whatever happened to the store during the update,
    as long as the read of the GetPreferences does not fail. *)
Theorem patch_then_get (context : Context) (w : World) (p : Preferences)
    (dt : nat) (sch : list Step) :
  (onRequestPatch context w).1 = Normal (success p) ->
  fault (default quiet (head sch)) = None ->
  (onRequestGet context (later (onRequestPatch context w).2 dt sch)).1 =
  Normal (success p).
Proof.
  intros Hs Hq. apply patch_success_row in Hs as (r & Hr & ->).
  rewrite get_run. simpl. rewrite Hq. simpl. by rewrite Hr.
Qed.

Lemma patch_then_get_witness :
  (onRequestPatch (as_user "u1" theme_dark) world_new).1 =
    Normal (success (mkPreferences
      (SqlText "dark") (SqlNumber 20) (SqlText "list") (SqlText "normal")
      (SqlText "grid") (SqlText "popular")
      (SqlText "2023-11-14T22:13:20.123Z"))) /\
  fault (default quiet (head [mkStep 3 None])) = None /\
  (onRequestGet (as_user "u1" theme_dark)
     (later (onRequestPatch (as_user "u1" theme_dark) world_new).2 50
            [mkStep 3 None])).1 =
    Normal (success (mkPreferences
      (SqlText "dark") (SqlNumber 20) (SqlText "list") (SqlText "normal")
      (SqlText "grid") (SqlText "popular")
      (SqlText "2023-11-14T22:13:20.123Z"))).
Proof.
  split; [vm_compute; reflexivity|]. split; [reflexivity|].
  apply (patch_then_get (as_user "u1" theme_dark) world_new _ 50
           [mkStep 3 None]); [vm_compute|]; reflexivity.
Defined.





Lemma masked_when_missing (c : Column) (body : UpdatePreferencesRequest)
    (d : Db) (v : SQLParam) :
  body_field c body = Some v -> column_exists d c = false ->
  masked body (has_tag_layout d) (has_sort_by d) = true /\
  supported c (has_tag_layout d) (has_sort_by d) = false /\
  out_get c = (match c with c_sort_by => out_sort_by | _ => out_tag_layout end).
Proof.
  intros Hf He. unfold masked.
  destruct c; simpl in *; try discriminate; rewrite He;
    [destruct (body_tag_layout body)|destruct (body_sort_by body)];
    try discriminate; simpl; repeat split; by rewrite ?orb_true_r.
Qed.

Lemma masked_dropped (context : Context) (body : UpdatePreferencesRequest)
    (w : World) (r : Row) (c : Column) (v : SQLParam) :
  request_json context = Normal body ->
  validate body = None ->
  no_faults (sched w) ->
  rows (db w) !! data_user_id context = Some r ->
  body_field c body = Some v ->
  column_exists (db w) c = false ->
  let res := onRequestPatch context w in
  exists p, res.1 = Normal (success p) /\
            out_get c p = SqlText (fallback c) /\
            stored c (data_user_id context) res.2 =
              stored c (data_user_id context) w.
Proof.
  intros Hb Hv Hq Hr Hf He. simpl.
  destruct (masked_when_missing c body (db w) v Hf He) as (Hm & Hs & _).
  assert (forall r', out_get c (shown (db w) r') = SqlText (fallback c)) as Hout.
  { intros r'. destruct c; simpl in *; try discriminate; by rewrite He. }
  destruct (build_updates body (has_tag_layout (db w)) (has_sort_by (db w))).1
    as [|u us] eqn:Hbu.
  - rewrite (patch_quiet _ _ _ Hb Hq).
    destruct (tail_noop (data_user_id context) body _ _ (after_probes w)
                Hv Hbu Hm) as (Hd & _ & _ & _ & Hres).
    rewrite Hres by (simpl; by apply no_faults_head, no_faults_tail,
                                    no_faults_tail).
    simpl. rewrite Hr. eexists. split; [done|].
    by rewrite project_fetch, Hout.
  - assert ((build_updates body (has_tag_layout (db w))
               (has_sort_by (db w))).1 <> []) as Hne by (by rewrite Hbu).
    destruct (patch_quiet_written context body w r Hb Hv Hq Hr Hne)
      as (H1 & _ & H3 & _).
    eexists. split; [exact H1|]. split; [apply Hout|].
    unfold stored. rewrite H3, Hr. simpl. f_equal.
    rewrite patched_get, Hs. case_decide; [|done]. subst. discriminate.
Qed.

(** X9.  A field of an accepted body whose optional column the table
    lacks is dropped without an error: when the store does not fail and
    the user has a row, the response is a success that shows the default
    of the column ("grid", "popular"), and the row keeps what it held,
    whether or not the body holds other fields. *)
Theorem masked_field_dropped (context : Context)
    (body : UpdatePreferencesRequest) (w : World) (r : Row) (c : Column)
    (v : SQLParam) :
  request_json context = Normal body ->
  validate body = None ->
  no_faults (sched w) ->
  rows (db w) !! data_user_id context = Some r ->
  body_field c body = Some v ->
  column_exists (db w) c = false ->
  let res := onRequestPatch context w in
  exists p, res.1 = Normal (success p) /\
            out_get c p = SqlText (fallback c) /\
            stored c (data_user_id context) res.2 =
              stored c (data_user_id context) w.
Proof. apply masked_dropped. Qed.

Lemma masked_field_dropped_witness :
  request_json (as_user "u1" dark_created) = Normal dark_created /\
  validate dark_created = None /\
  no_faults (sched world_old) /\
  rows (db world_old) !! "u1" = Some row0 /\
  body_field c_sort_by dark_created = Some (SqlText "created") /\
  column_exists (db world_old) c_sort_by = false /\
  exists p,
    (onRequestPatch (as_user "u1" dark_created) world_old).1 =
      Normal (success p) /\
    out_get c_sort_by p = SqlText (fallback c_sort_by) /\
    stored c_sort_by "u1" (onRequestPatch (as_user "u1" dark_created) world_old).2 =
    stored c_sort_by "u1" world_old.
Proof.
  do 2 (split; [reflexivity|]). split; [constructor|].
  do 3 (split; [reflexivity|]).
  apply (masked_field_dropped (as_user "u1" dark_created) dark_created
           world_old row0 c_sort_by (SqlText "created"));
    try reflexivity. constructor.
Defined.

(** ** What a request leaves alone *)

(** X10.  UpdatePreferences, whatever the store does, changes at most
    the row of the user of the request: the table keeps its columns, the
    rows of the other users are as before, and no row appears or
    disappears. *)
Theorem patch_isolation (context : Context) (w : World) :
  let res := onRequestPatch context w in
  has_tag_layout (db res.2) = has_tag_layout (db w) /\
  has_sort_by (db res.2) = has_sort_by (db w) /\
  (forall k, k <> data_user_id context ->
             rows (db res.2) !! k = rows (db w) !! k) /\
  (forall k, is_Some (rows (db res.2) !! k) <-> is_Some (rows (db w) !! k)).
Proof.
  simpl.
  destruct (patch_db context w) as [->|(body & tl & sb & t & _ & _ & _ & ->)];
    [done|].
  simpl. repeat split.
  - intros k Hk. rewrite lookup_alter. by case_decide.
  - rewrite lookup_alter. case_decide; [subst|done]. by rewrite fmap_is_Some.
  - rewrite lookup_alter. case_decide; [subst|done]. by rewrite fmap_is_Some.
Qed.

(** ** Nothing to update *)

Lemma no_fields (body : UpdatePreferencesRequest) (tl sb : bool) :
  (build_updates body tl sb).1 = [] /\ masked body tl sb = false <->
  body = empty_body.
Proof.
  split.
  - split_body body; destruct tl, sb; by intros [[=] [=]].
  - intros ->. by destruct tl, sb.
Qed.

Lemma validate_other_message (body : UpdatePreferencesRequest) :
  validate body <> Some (badRequest "No valid fields to update").
Proof.
  unfold validate.
  repeat match goal with |- context [if ?b then _ else _] => destruct b end;
    discriminate.
Qed.

(** X11.  For a body that is a JSON object, UpdatePreferences answers
    BadInput, "No valid fields to update", exactly when the body holds
    none of the six fields and both probes have answered; a body that
    holds one of the fields, whatever the field, never gets this
    answer. *)
Theorem nothing_to_update (context : Context) (body : UpdatePreferencesRequest)
    (w : World) :
  request_json context = Normal body ->
  (onRequestPatch context w).1 =
    Normal (badRequest "No valid fields to update") <->
  body = empty_body /\
  exists tl sb, (hasTagLayoutColumn w).1 = Normal tl /\
                (hasSortByColumn (hasTagLayoutColumn w).2).1 = Normal sb.
Proof.
  intros Hb. split.
  - intros Hr.
    destruct (patch_stages context w) as
      [(e & _ & He)|[(e & _ & He & _)|[(e & _ & He & _)
        |(body' & tl & sb & Hb' & Htl & Hsb & He)]]];
      try (rewrite He in Hr; discriminate).
    rewrite Hb in Hb'. injection Hb' as <-.
    split; [|by exists tl, sb]. rewrite He in Hr. clear He.
    destruct (validate body) as [rej|] eqn:Hv.
    { rewrite (tail_reject _ _ _ _ _ _ Hv) in Hr. injection Hr as ->.
      by apply validate_other_message in Hv. }
    destruct (build_updates body tl sb).1 as [|u us] eqn:Hbu.
    + destruct (masked body tl sb) eqn:Hm; [|by apply (no_fields body tl sb)].
      destruct (tail_noop (data_user_id context) body tl sb (after_probes w)
                  Hv Hbu Hm) as (_ & _ & _ & Hre & _).
      rewrite Hr in Hre. by destruct Hre as [[=]|[[_ [=]]|(r & _ & [=])]].
    + assert ((build_updates body tl sb).1 <> []) as Hne by (by rewrite Hbu).
      destruct (tail_update (data_user_id context) body tl sb (after_probes w)
                  Hv Hne) as [_ [(_ & _ & Hi)|(_ & _ & Hre)]].
      * rewrite Hr in Hi. discriminate.
      * rewrite Hr in Hre. by destruct Hre as [[=]|[[_ [=]]|(r & _ & [=])]].
  - intros (-> & tl & sb & Htl & Hsb).
    rewrite (patch_with_answers _ _ _ _ _ Hb Htl Hsb).
    rewrite tail_nothing; try done; by destruct tl, sb.
Qed.

Lemma nothing_to_update_witness :
  request_json (as_user "u1" empty_body) = Normal empty_body /\
  ((onRequestPatch (as_user "u1" empty_body) world_old).1 =
     Normal (badRequest "No valid fields to update") <->
   empty_body = empty_body /\
   exists tl sb, (hasTagLayoutColumn world_old).1 = Normal tl /\
                 (hasSortByColumn (hasTagLayoutColumn world_old).2).1 = Normal sb).
Proof.
  split; [reflexivity|].
  exact (nothing_to_update (as_user "u1" empty_body) empty_body world_old
           eq_refl).
Defined.

(** ** The UPDATE and the read after it *)

Lemma tail_update_commits (uid : string) (body : UpdatePreferencesRequest)
    (tl sb : bool) (w : World) :
  validate body = None ->
  (build_updates body tl sb).1 <> [] ->
  (tl = true -> has_tag_layout (db w) = true) ->
  (sb = true -> has_sort_by (db w) = true) ->
  fault (default quiet (head (sched w))) = None ->
  let res := try_catch (patch_tail uid body tl sb) patch_catch w in
  db res.2 = patched_db body tl sb (Js.toISOString (clock w)) uid (db w) /\
  (forall e, fault (default quiet (head (tail (sched w)))) = Some e ->
     res.1 = Normal (internalError "Failed to update preferences") /\
     console res.2 = console w ++ [("Update preferences error:", e)]).
Proof.
  intros Hv Hne Htl Hsb Hq. simpl.
  pose proof (update_build_ok (db w) body tl sb (Js.toISOString (clock w)) uid
                Htl Hsb) as Hupd.
  run_tail. rewrite Hv.
  destruct (build_updates body tl sb) as [us vs]. simpl in *.
  destruct us as [|u us]; [done|]. simpl in *.
  rewrite (statement_quiet _ _ w Hq). simpl. rewrite Hupd. simpl.
  match goal with |- context [statement ?s ?sem ?w1] =>
    destruct (fault (default quiet (head (sched w1)))) as [e|] eqn:Hf2;
    [rewrite (statement_fault s sem w1 e Hf2)
    |rewrite (statement_quiet s sem w1 Hf2)]
  end; simpl in *.
  - split; [done|]. intros e' He'. rewrite He' in Hf2. by injection Hf2 as ->.
  - unfold select_by_user. simpl.
    destruct (alter _ uid (rows (db w)) !! uid); simpl;
      (split; [done|]); intros e' He'; congruence.
Qed.

Lemma answers_true (w : World) (tl sb : bool) :
  (hasTagLayoutColumn w).1 = Normal tl ->
  (hasSortByColumn (hasTagLayoutColumn w).2).1 = Normal sb ->
  (tl = true -> has_tag_layout (db w) = true) /\
  (sb = true -> has_sort_by (db w) = true).
Proof.
  intros Htl Hsb. split.
  - intros ->. by apply (probe_true c_tag_layout w (or_introl eq_refl)).
  - intros ->. rewrite hasTagLayoutColumn_run in Hsb. simpl in Hsb.
    by apply (probe_true c_sort_by _ (or_intror eq_refl)) in Hsb.
Qed.

(** X12.  Once both probes have answered and a body of the base types of
    the interface (its fields hold strings and integers, never null) has
    passed the validation with something to write, the UPDATE the handler
    builds cannot fail by itself: its clauses name columns the table has,
    the values bound are one more than the clauses, and no null goes to a
    NOT NULL column.  Unless the store fails on it, the row of the user
    is patched with the fields of the body. *)
Theorem update_goes_through (context : Context)
    (body : UpdatePreferencesRequest) (w : World) (tl sb : bool) :
  request_json context = Normal body ->
  (hasTagLayoutColumn w).1 = Normal tl ->
  (hasSortByColumn (hasTagLayoutColumn w).2).1 = Normal sb ->
  validate body = None ->
  (build_updates body tl sb).1 <> [] ->
  fault (default quiet (head (sched (after_probes w)))) = None ->
  let uid := data_user_id context in
  let now := Js.toISOString (clock (after_probes w)) in
  update_by_user (db w)
    ((build_updates body tl sb).1 ++ ["updated_at = ?"])
    (((build_updates body tl sb).2 ++ [SqlText now]) ++ [SqlText uid]) =
    (Normal (), patched_db body tl sb now uid (db w)) /\
  db (onRequestPatch context w).2 = patched_db body tl sb now uid (db w).
Proof.
  intros Hb Htl Hsb Hv Hne Hq. simpl.
  destruct (answers_true w tl sb Htl Hsb) as [H1 H2].
  split; [by apply update_build_ok|].
  rewrite (patch_with_answers _ _ _ _ _ Hb Htl Hsb).
  by destruct (tail_update_commits (data_user_id context) body tl sb
                 (after_probes w) Hv Hne H1 H2 Hq) as [-> _].
Qed.

Lemma update_goes_through_witness :
  request_json (as_user "u1" dark_created) = Normal dark_created /\
  (hasTagLayoutColumn world_old).1 = Normal false /\
  (hasSortByColumn (hasTagLayoutColumn world_old).2).1 = Normal false /\
  validate dark_created = None /\
  (build_updates dark_created false false).1 <> [] /\
  fault (default quiet (head (sched (after_probes world_old)))) = None /\
  db (onRequestPatch (as_user "u1" dark_created) world_old).2 =
    patched_db dark_created false false
      (Js.toISOString (clock (after_probes world_old))) "u1" (db world_old).
Proof.
  do 4 (split; [reflexivity|]). split; [discriminate|]. split; [reflexivity|].
  refine (proj2 (update_goes_through (as_user "u1" dark_created) dark_created
                   world_old false false eq_refl eq_refl eq_refl eq_refl _
                   eq_refl)).
  discriminate.
Defined.

(** X13.  The UPDATE and the read after it are two statements, not one
    transaction: when the UPDATE goes through and the read fails, the
    response is Internal, "Failed to update preferences", and the row of
    the user is patched all the same. *)
Theorem write_survives_failed_read (context : Context)
    (body : UpdatePreferencesRequest) (w : World) (tl sb : bool) (e : Thrown)
    (r : Row) :
  request_json context = Normal body ->
  (hasTagLayoutColumn w).1 = Normal tl ->
  (hasSortByColumn (hasTagLayoutColumn w).2).1 = Normal sb ->
  validate body = None ->
  (build_updates body tl sb).1 <> [] ->
  fault (default quiet (head (sched (after_probes w)))) = None ->
  fault (default quiet (head (tail (sched (after_probes w))))) = Some e ->
  rows (db w) !! data_user_id context = Some r ->
  let res := onRequestPatch context w in
  let now := Js.toISOString (clock (after_probes w)) in
  res.1 = Normal (internalError "Failed to update preferences") /\
  rows (db res.2) !! data_user_id context = Some (patched body tl sb now r).
Proof.
  intros Hb Htl Hsb Hv Hne Hq He Hr. simpl.
  destruct (answers_true w tl sb Htl Hsb) as [H1 H2].
  rewrite (patch_with_answers _ _ _ _ _ Hb Htl Hsb).
  destruct (tail_update_commits (data_user_id context) body tl sb
              (after_probes w) Hv Hne H1 H2 Hq) as [-> Hf].
  destruct (Hf e He) as [-> _]. split; [done|].
  simpl. rewrite lookup_alter. case_decide; [|done]. by rewrite Hr.
Qed.

Lemma write_survives_failed_read_witness :
  request_json (as_user "u1" theme_dark) = Normal theme_dark /\
  (hasTagLayoutColumn world_read_fails).1 = Normal true /\
  (hasSortByColumn (hasTagLayoutColumn world_read_fails).2).1 = Normal true /\
  validate theme_dark = None /\
  (build_updates theme_dark true true).1 <> [] /\
  fault (default quiet (head (sched (after_probes world_read_fails)))) = None /\
  fault (default quiet (head (tail (sched (after_probes world_read_fails))))) =
    Some (JsError "D1_ERROR: Network connection lost.") /\
  rows (db world_read_fails) !! "u1" = Some row0 /\
  (onRequestPatch (as_user "u1" theme_dark) world_read_fails).1 =
    Normal (internalError "Failed to update preferences") /\
  rows (db (onRequestPatch (as_user "u1" theme_dark) world_read_fails).2)
    !! "u1" =
    Some (patched theme_dark true true
            (Js.toISOString (clock (after_probes world_read_fails))) row0).
Proof.
  do 4 (split; [reflexivity|]). split; [discriminate|].
  do 3 (split; [reflexivity|]).
  refine (write_survives_failed_read (as_user "u1" theme_dark) theme_dark
            world_read_fails true true _ row0 eq_refl eq_refl eq_refl eq_refl
            _ eq_refl eq_refl eq_refl).
  discriminate.
Defined.

(** ** What a response shows *)

Lemma shown_not_null (d : Db) (r : Row) :
  out_tag_layout (shown d r) <> SqlNull /\ out_sort_by (shown d r) <> SqlNull.
Proof.
  unfold shown, with_default. simpl.
  split; repeat case_decide; try done; by destruct (has_tag_layout d),
    (has_sort_by d).
Qed.

(** X14.  No success of either handler shows null for [tag_layout] or
    [sort_by], whatever the row holds and whatever the table lacks. *)
Theorem optional_never_null (context : Context) (w : World) (p : Preferences) :
  (onRequestGet context w).1 = Normal (success p) \/
  (onRequestPatch context w).1 = Normal (success p) ->
  out_tag_layout p <> SqlNull /\ out_sort_by p <> SqlNull.
Proof.
  intros [Hg|Hp].
  - rewrite get_run in Hg. simpl in Hg.
    destruct (fault _); [discriminate|]. simpl in Hg.
    destruct (rows (db w) !! data_user_id context); [|discriminate].
    injection Hg as <-. apply shown_not_null.
  - apply patch_success_row in Hp as (r & _ & ->). apply shown_not_null.
Qed.

Lemma optional_never_null_witness :
  ((onRequestGet (as_user "u1" empty_body) world_null).1 =
     Normal (success (shown (db world_null) row_null)) \/
   (onRequestPatch (as_user "u1" empty_body) world_null).1 =
     Normal (success (shown (db world_null) row_null))) /\
  out_tag_layout (shown (db world_null) row_null) <> SqlNull /\
  out_sort_by (shown (db world_null) row_null) <> SqlNull.
Proof.
  split; [left; vm_compute; reflexivity|].
  apply (optional_never_null (as_user "u1" empty_body) world_null).
  left. vm_compute. reflexivity.
Defined.

(** ** The domains of the columns *)

(** X15.  A body of the base types of the interface (text fields that
    hold strings, a page size that holds an integer) that passes the
    validation and holds no falsy value (no empty string, no zero) keeps
    every column in its domain: whatever the store does, a column of a
    row that held a value of its domain before the request holds one
    after it. *)
Theorem domains_kept (context : Context) (body : UpdatePreferencesRequest)
    (w : World) (k : string) (r : Row) (c : Column) :
  request_json context = Normal body ->
  validate body = None ->
  (forall c' v, body_field c' body = Some v -> ~ falsy v) ->
  rows (db w) !! k = Some r ->
  in_domain c (row_get c r) ->
  exists r', rows (db (onRequestPatch context w).2) !! k = Some r' /\
             in_domain c (row_get c r').
Proof.
  intros Hb Hv Hnf Hr Hin.
  destruct (patch_db context w) as
    [->|(body' & tl & sb & t & Hb' & _ & _ & ->)]; [by exists r|].
  rewrite Hb in Hb'. injection Hb' as <-.
  simpl. rewrite lookup_alter. case_decide; [subst k|by exists r].
  rewrite Hr. simpl. eexists. split; [done|].
  rewrite patched_get. case_decide; [by subst|].
  destruct (supported c tl sb); [|done].
  destruct (body_field c body) as [v|] eqn:Hf; [simpl|done].
  destruct (proj1 (validate_none_iff body) Hv c v Hf) as [Hfalsy|Hd]; [|done].
  by apply Hnf in Hf.
Qed.

Lemma domains_kept_witness :
  request_json (as_user "u1" theme_dark) = Normal theme_dark /\
  validate theme_dark = None /\
  (forall c' v, body_field c' theme_dark = Some v -> ~ falsy v) /\
  rows (db world_new) !! "u1" = Some row0 /\
  in_domain c_theme (row_get c_theme row0) /\
  exists r', rows (db (onRequestPatch (as_user "u1" theme_dark) world_new).2)
               !! "u1" = Some r' /\
             in_domain c_theme (row_get c_theme r').
Proof.
  assert (forall c' v, body_field c' theme_dark = Some v -> ~ falsy v) as Hnf.
  { intros c' v Hf [->| ->]; destruct c'; discriminate. }
  do 2 (split; [reflexivity|]). split; [exact Hnf|].
  split; [reflexivity|]. split; [simpl; tauto|].
  apply (domains_kept (as_user "u1" theme_dark) theme_dark world_new "u1" row0
           c_theme); [reflexivity|reflexivity|exact Hnf|reflexivity|].
  simpl. tauto.
Defined.

(** ** The migration *)

Lemma migration_run (d : Db) :
  has_tag_layout d = false -> has_sort_by d = false ->
  migration d =
  Normal (mkDb true true
            (row_set c_sort_by (SqlText "popular") <$>
               (row_set c_tag_layout (SqlText "grid") <$> rows d))).
Proof.
  intros Ht Hs. unfold migration, add_column. simpl. rewrite Ht. simpl.
  by rewrite Hs.
Qed.

(** X16.  The migration goes through exactly on a table that has neither
    [tag_layout] nor [sort_by]: the two ALTER statements have no guard,
    so it fails on a table that has one of the columns, and it cannot
    be applied twice. *)
Theorem migration_applies (d : Db) :
  (exists d', migration d = Normal d') <->
  has_tag_layout d = false /\ has_sort_by d = false.
Proof.
  split.
  - intros [d' Hm]. unfold migration, add_column in Hm. simpl in Hm.
    destruct (has_tag_layout d); [discriminate|]. simpl in Hm.
    destruct (has_sort_by d); [discriminate|]. done.
  - intros [Ht Hs]. eexists. by apply migration_run.
Qed.

(** X17.  GetPreferences does not see the migration: on a table without
    the two columns, the defaults the migration fills in are the defaults
    the handler shows for a missing column, so every user gets the same
    response before and after; the four base columns and [updated_at] of
    every row are untouched. *)
Theorem migration_invisible (context : Context) (w : World) :
  has_tag_layout (db w) = false -> has_sort_by (db w) = false ->
  exists d',
    migration (db w) = Normal d' /\
    has_tag_layout d' = true /\ has_sort_by d' = true /\
    (onRequestGet context (with_db d' w)).1 = (onRequestGet context w).1 /\
    (forall k c, c <> c_tag_layout -> c <> c_sort_by ->
       row_get c <$> rows d' !! k = row_get c <$> rows (db w) !! k).
Proof.
  intros Ht Hs. eexists. split; [by apply migration_run|].
  split; [done|]. split; [done|]. split.
  - rewrite !get_run. simpl. destruct (fault _); [done|]. simpl.
    rewrite !lookup_fmap.
    destruct (rows (db w) !! data_user_id context) as [r|]; [|done]. simpl.
    do 2 f_equal. unfold shown, with_default. simpl. by rewrite Ht, Hs.
  - intros k c H1 H2. simpl. rewrite !lookup_fmap.
    destruct (rows (db w) !! k) as [r|]; [|done]. simpl. f_equal.
    by destruct c.
Qed.

Lemma migration_invisible_witness :
  has_tag_layout (db world_old) = false /\ has_sort_by (db world_old) = false /\
  exists d',
    migration (db world_old) = Normal d' /\
    has_tag_layout d' = true /\ has_sort_by d' = true /\
    (onRequestGet (as_user "u1" empty_body) (with_db d' world_old)).1 =
      (onRequestGet (as_user "u1" empty_body) world_old).1 /\
    (forall k c, c <> c_tag_layout -> c <> c_sort_by ->
       row_get c <$> rows d' !! k = row_get c <$> rows (db world_old) !! k).
Proof.
  do 2 (split; [reflexivity|]).
  exact (migration_invisible (as_user "u1" empty_body) world_old eq_refl eq_refl).
Defined.



(** ** A probe that throws *)

(** X19.  A probe that throws, for a reason other than the missing
    column, ends the request before the validation: the response is
    Internal, "Failed to update preferences", even for a body the
    validation would reject; the table is as before and only probes were
    sent. *)
Theorem probe_failure_aborts (context : Context)
    (body : UpdatePreferencesRequest) (w : World) (e : Thrown) :
  request_json context = Normal body ->
  (hasTagLayoutColumn w).1 = Abrupt e \/
  (hasSortByColumn (hasTagLayoutColumn w).2).1 = Abrupt e ->
  let res := onRequestPatch context w in
  res.1 = Normal (internalError "Failed to update preferences") /\
  db res.2 = db w /\
  (trace res.2 = trace w ++ [probe_tag_layout] \/
   trace res.2 = trace w ++ [probe_tag_layout; probe_sort_by]).
Proof.
  intros Hb He. simpl.
  destruct (patch_stages context w) as
    [(e' & Hb' & _)|[(e' & _ & Hr & Hd & Ht)|[(e' & _ & Hr & Hd & Ht)
      |(body' & tl & sb & _ & Htl & Hsb & _)]]].
  - congruence.
  - repeat split; try done. by left.
  - repeat split; try done. by right.
  - destruct He; congruence.
Qed.

Lemma probe_failure_aborts_witness :
  request_json (as_user "u1" view_mode_bogus) = Normal view_mode_bogus /\
  ((hasTagLayoutColumn world_probe_fails).1 =
     Abrupt (JsError "D1_ERROR: Network connection lost.") \/
   (hasSortByColumn (hasTagLayoutColumn world_probe_fails).2).1 =
     Abrupt (JsError "D1_ERROR: Network connection lost.")) /\
  (onRequestPatch (as_user "u1" view_mode_bogus) world_probe_fails).1 =
    Normal (internalError "Failed to update preferences").
Proof.
  split; [reflexivity|]. split; [by left|].
  refine (proj1 (probe_failure_aborts (as_user "u1" view_mode_bogus)
                   view_mode_bogus world_probe_fails
                   (JsError "D1_ERROR: Network connection lost.")
                   eq_refl _)).
  by left.
Defined.
